(** * healheart: medicine search page, chat assistant helpers, favorites page

  A shallow embedding of the parts of the front end that carry logic:

  - [SearchPage.handleSearch]   (frontend/src/pages/SearchPage.jsx)
  - [Chatbot.extractMedicineName] (frontend/src/components/Chatbot.jsx)
  - [FavoritesPage.removeFavorite] (frontend/src/pages/customer/FavoritesPage.jsx)
  - the auth store, the route guards of [App], the handlers of the chat
    widget, the loading of favorites and the customer dashboard

  JavaScript strings are sequences of UTF-16 code units, numbers that are
  only passed around are binary64 floats, React state is an explicit
  record, and every observable side effect (toast, console, call to the
  data layer) is appended to a log. *)

From Stdlib Require Import List Bool ZArith NArith Lia.
From Stdlib Require Import Ascii String Decimal DecimalString.
From Stdlib Require Import PrimFloat.
From Stdlib Require Import QArith Qabs Lqa.
From Stdlib Require Import Sorting.Sorted.
From Stdlib Require Import OrderedTypeEx.
Import ListNotations.

Set Implicit Arguments.

(* ================================================================== *)
(** ** JavaScript values used by the pages *)
(* ================================================================== *)

Module JS.

(** A JavaScript string: its UTF-16 code units. *)
Definition jsstring := list N.

(** An ASCII literal of the source, as a JavaScript string. *)
Definition lit (s : string) : jsstring :=
  List.map N_of_ascii (list_ascii_of_string s).

(** Template-literal conversion of a length (a non-negative integer). *)
Definition of_nat (n : nat) : jsstring :=
  lit (NilEmpty.string_of_uint (Nat.to_uint n)).

(** ECMAScript WhiteSpace and LineTerminator code points, the set that
    [String.prototype.trim] strips: TAB, LF, VT, FF, CR, SP, NBSP, the
    Unicode Zs category, LS, PS and ZWNBSP. *)
Definition isWhiteSpace (c : N) : bool :=
  ((9 <=? c) && (c <=? 13) ||
   (c =? 32) || (c =? 160) || (c =? 5760) ||
   ((8192 <=? c) && (c <=? 8202)) ||
   (c =? 8232) || (c =? 8233) || (c =? 8239) || (c =? 8287) ||
   (c =? 12288) || (c =? 65279))%N.

Fixpoint trimStart (s : jsstring) : jsstring :=
  match s with
  | c :: t => if isWhiteSpace c then trimStart t else s
  | [] => []
  end.

Definition trimEnd (s : jsstring) : jsstring :=
  List.rev (trimStart (List.rev s)).

(** [String.prototype.trim]. *)
Definition trim (s : jsstring) : jsstring := trimEnd (trimStart s).

(** ToBoolean on a string: the empty string is the only falsy one. *)
Definition truthy (s : jsstring) : bool :=
  match s with [] => false | _ :: _ => true end.

(** Strict equality [===] of two strings. *)
Fixpoint streq (a b : jsstring) : bool :=
  match a, b with
  | [], [] => true
  | x :: a', y :: b' => (x =? y)%N && streq a' b'
  | _, _ => false
  end.

(** A thrown value (an [Error] with its message). *)
Record Error := mkError { message : jsstring }.

(** How a call ends: it returns, or it throws (for an [async] function:
    the promise is fulfilled, or it is rejected and [await] rethrows). *)
Inductive outcome (A : Type) : Type :=
| Returned (a : A)
| Thrown (e : Error).
Arguments Returned {A} a.
Arguments Thrown {A} e.

(** Empty or whitespace-only text. *)
Definition isBlank (s : jsstring) : bool := forallb isWhiteSpace s.

End JS.
Import JS.

(* ================================================================== *)
(** ** Event handlers: state, effect log and exceptions *)
(* ================================================================== *)

Module Handler.

Section Monad.

Variables St Ev : Type.

(** What a handler works on: the component state and the effects so far. *)
Record World := mkWorld { page : St; log : list Ev }.

Definition Act (A : Type) : Type := World -> outcome A * World.

Definition ret {A} (a : A) : Act A := fun w => (Returned a, w).

Definition bind {A B} (m : Act A) (k : A -> Act B) : Act B :=
  fun w =>
    match m w with
    | (Returned a, w') => k a w'
    | (Thrown e, w') => (Thrown e, w')
    end.

(** [throw error]. *)
Definition throw {A} (e : Error) : Act A := fun w => (Thrown e, w).

Definition emit (ev : Ev) : Act unit :=
  fun w => (Returned tt, mkWorld (page w) (log w ++ [ev])).

(** A state setter. *)
Definition update (f : St -> St) : Act unit :=
  fun w => (Returned tt, mkWorld (f (page w)) (log w)).

(** An awaited call that leaves the page: logged, then it returns or
    throws. *)
Definition call {A} (ev : Ev) (r : outcome A) : Act A :=
  fun w => (r, mkWorld (page w) (log w ++ [ev])).

(** An [await] that resumes: the promise has settled, with a value or with
    an exception. *)
Definition settled {A} (r : outcome A) : Act A := fun w => (r, w).

(** [try { body } catch (error) { handler }]. *)
Definition try_catch {A} (body : Act A) (handler : Error -> Act A) : Act A :=
  fun w =>
    match body w with
    | (Returned a, w') => (Returned a, w')
    | (Thrown e, w') => handler e w'
    end.

(** [try { body } catch (error) { handler } finally { fin }]. *)
Definition try_catch_finally {A} (body : Act A) (handler : Error -> Act A)
           (fin : Act unit) : Act A :=
  fun w =>
    let '(r, w1) := try_catch body handler w in
    match fin w1 with
    | (Returned _, w2) => (r, w2)
    | (Thrown e, w2) => (Thrown e, w2)
    end.

Definition when (b : bool) (m : Act unit) : Act unit :=
  if b then m else ret tt.

End Monad.

Arguments ret {St Ev A} a.
Arguments bind {St Ev A B} m k.
Arguments throw {St Ev A} e.
Arguments emit {St Ev} ev.
Arguments update {St Ev} f.
Arguments call {St Ev A} ev r.
Arguments settled {St Ev A} r.
Arguments try_catch {St Ev A} body handler.
Arguments try_catch_finally {St Ev A} body handler fin.
Arguments when {St Ev} b m.
Arguments mkWorld {St Ev} page log.
Arguments page {St Ev} w.
Arguments log {St Ev} w.

(** [e?.] : whether the optional receiver is there. *)
Definition present {A} (o : option A) : bool :=
  match o with Some _ => true | None => false end.

End Handler.
Import Handler.

Declare Scope act_scope.
Delimit Scope act_scope with act.
Notation "x <- m ;; k" := (bind m (fun x => k))
  (at level 61, m at next level, right associativity) : act_scope.
Notation "m ;; k" := (bind m (fun _ => k))
  (at level 61, right associativity) : act_scope.

(* ================================================================== *)
(** ** pages/SearchPage.jsx *)
(* ================================================================== *)

Module SearchPage.

(** The joined store of a result row, as the page reads it. *)
Record StoreInfo := {
  store_name : jsstring;
  address : jsstring;
  latitude : jsstring;
  longitude : jsstring;
  phone : jsstring
}.

(** One row returned by [searchMedicines]. *)
Record SearchRow := {
  id : jsstring;
  name : jsstring;
  generic_name : option jsstring;
  price : float;
  quantity : Z;
  image_url : option jsstring;
  distance_km : float;
  stores : StoreInfo
}.

(** [userLocation] of the location store. *)
Record Location := { lat : float; lng : float }.

(** [user] of the auth store. *)
Record User := { user_id : jsstring }.

(** Component state ([useState] cells) and the two store values the
    component reads. *)
Record State := mkState {
  searchQuery : jsstring;
  results : list SearchRow;
  loading : bool;
  searched : bool;
  radius : Z;
  showFilters : bool;
  selectedResult : option SearchRow;
  mapCenter : option (float * float);
  userLocation : option Location;
  user : option User
}.

Definition setResults (v : list SearchRow) (s : State) : State :=
  mkState (searchQuery s) v (loading s) (searched s) (radius s)
          (showFilters s) (selectedResult s) (mapCenter s)
          (userLocation s) (user s).
Definition setLoading (v : bool) (s : State) : State :=
  mkState (searchQuery s) (results s) v (searched s) (radius s)
          (showFilters s) (selectedResult s) (mapCenter s)
          (userLocation s) (user s).
Definition setSearched (v : bool) (s : State) : State :=
  mkState (searchQuery s) (results s) (loading s) v (radius s)
          (showFilters s) (selectedResult s) (mapCenter s)
          (userLocation s) (user s).
Definition setSelectedResult (v : option SearchRow) (s : State) : State :=
  mkState (searchQuery s) (results s) (loading s) (searched s) (radius s)
          (showFilters s) v (mapCenter s)
          (userLocation s) (user s).
(** Modelled from the spec: [setLocation] of the location store, which is
    not among the sources; it records the coordinate as [userLocation]
    ("falling back to a fixed default coordinate"). *)
Definition setLocation (la lo : float) (s : State) : State :=
  mkState (searchQuery s) (results s) (loading s) (searched s) (radius s)
          (showFilters s) (selectedResult s) (mapCenter s)
          (Some {| lat := la; lng := lo |}) (user s).

(** Observable effects, in the order they happen. *)
Inductive Effect :=
| PreventDefault
| ToastError (msg : jsstring)
| ToastPlain (msg : jsstring)
| ToastSuccess (msg : jsstring)
| ConsoleError (label : jsstring) (err : Error)
| CallSearchMedicines (query : jsstring) (la lo : float) (radiusKm : Z)
| CallLogSearch (uid : jsstring) (query : jsstring) (la lo : float)
                (count : nat).

(** The data layer, [../lib/supabase], is not part of the page: both of
    its functions are taken as parameters, and each may return or throw. *)
Record Supabase := {
  searchMedicines : jsstring -> float -> float -> Z -> outcome (list SearchRow);
  logSearch : jsstring -> jsstring -> float -> float -> nat -> outcome unit
}.

Definition World := Handler.World State Effect.
Definition Act := Handler.Act State Effect.

Local Open Scope act_scope.

(** *** The handler *)

Inductive SubmitEvent := FormSubmit.

(** Messages of the handler, named after the failure they report. *)
Definition msg_InvalidQuery : jsstring := lit "Please enter a medicine name".
Definition msg_MissingLocation : jsstring := lit "Please enable location access".
Definition msg_SearchFailed : jsstring := lit "Search failed. Please try again.".
Definition msg_NoResults : jsstring := lit "No medicines found nearby".
Definition msg_Found (n : nat) : jsstring :=
  lit "Found " ++ of_nat n ++ lit " results".

Section WithDataLayer.

Variable db : Supabase.

(** [handleSearch], lines 93-142.  The values read ([searchQuery],
    [userLocation], [radius], [user]) are those of the render the
    handler was created in, here the state at the call. *)
Definition handleSearch (e : option SubmitEvent) : Act unit :=
  fun w0 =>
  let st := page w0 in
  (when (present e) (emit PreventDefault) ;;
   if negb (truthy (trim (searchQuery st))) then
     emit (ToastError msg_InvalidQuery)
   else
   match userLocation st with
   | None => emit (ToastError msg_MissingLocation)
   | Some loc =>
     update (setLoading true) ;;
     update (setSearched true) ;;
     update (setSelectedResult None) ;;
     try_catch_finally
       (searchResults <-
          call (CallSearchMedicines (searchQuery st) (lat loc) (lng loc)
                                    (radius st))
               (searchMedicines db (searchQuery st) (lat loc) (lng loc)
                                (radius st)) ;;
        update (setResults searchResults) ;;
        (match user st with
         | Some u =>
             call (CallLogSearch (user_id u) (searchQuery st) (lat loc)
                                 (lng loc) (List.length searchResults))
                  (logSearch db (user_id u) (searchQuery st) (lat loc)
                             (lng loc) (List.length searchResults))
         | None => ret tt
         end) ;;
        if List.length searchResults =? 0 then
          emit (ToastPlain msg_NoResults)
        else
          emit (ToastSuccess (msg_Found (List.length searchResults))))
       (fun error =>
          emit (ConsoleError (lit "Search error:") error) ;;
          emit (ToastError msg_SearchFailed))
       (update (setLoading false))
   end) w0.

(** Run the handler on a page state with an empty log. *)
Definition run (e : option SubmitEvent) (s : State) : outcome unit * World :=
  handleSearch e (mkWorld s []).

End WithDataLayer.

(** The default location (India) of line 81, as the binary64 values the
    literals denote. *)
#[warnings="-inexact-float"]
Definition defaultLat : float := 20.5937%float.
#[warnings="-inexact-float"]
Definition defaultLng : float := 78.9629%float.

(** The mount effect, lines 76-84: when no location is known, ask the
    location store; if that is rejected, fall back to the default location.
    [getUserLocation] belongs to the location store and is a parameter: an
    action that may update the store and resolve, or reject. *)
Definition mountEffect (getUserLocation : Act unit) : Act unit :=
  fun w0 =>
  (if present (userLocation (page w0)) then ret tt
   else
     try_catch getUserLocation
               (fun _ => update (setLocation defaultLat defaultLng))) w0.

(** *** What the user and the data layer observe *)

Definition isToast (ev : Effect) : bool :=
  match ev with
  | ToastError _ | ToastPlain _ | ToastSuccess _ => true
  | _ => false
  end.

Definition isFetch (ev : Effect) : bool :=
  match ev with CallSearchMedicines _ _ _ _ => true | _ => false end.

Definition isHistory (ev : Effect) : bool :=
  match ev with CallLogSearch _ _ _ _ _ => true | _ => false end.

Definition isConsole (ev : Effect) : bool :=
  match ev with ConsoleError _ _ => true | _ => false end.

Definition toasts (w : World) : list Effect := filter isToast (log w).
Definition fetchCalls (w : World) : list Effect := filter isFetch (log w).
Definition historyCalls (w : World) : list Effect := filter isHistory (log w).
Definition consoleLines (w : World) : list Effect := filter isConsole (log w).

(** What the page shows after a handler ran: its state and its toasts. *)
Definition uiView (w : World) : State * list Effect := (page w, toasts w).

(** The effects a form-submit event adds in front of everything else. *)
Definition prelude (e : option SubmitEvent) : list Effect :=
  if present e then [PreventDefault] else [].

(** The state after the three setters that open a search. *)
Definition opened (s : State) : State :=
  setSelectedResult None (setSearched true (setLoading true s)).

(** The history call of a search by the signed-in user, if any. *)
Definition historyCallOf (s : State) (loc : Location) (rows : list SearchRow)
  : list Effect :=
  match user s with
  | Some u => [CallLogSearch (user_id u) (searchQuery s) (lat loc) (lng loc)
                             (List.length rows)]
  | None => []
  end.

(** The toast that closes a search that ran to completion. *)
Definition resultToast (rows : list SearchRow) : Effect :=
  if List.length rows =? 0 then ToastPlain msg_NoResults
  else ToastSuccess (msg_Found (List.length rows)).

(** The history write of this search does not throw: nobody is signed in,
    or [logSearch] returns. *)
Definition historyReturns (db : Supabase) (s : State) (loc : Location)
           (rows : list SearchRow) : Prop :=
  match user s with
  | Some u => logSearch db (user_id u) (searchQuery s) (lat loc) (lng loc)
                        (List.length rows) = Returned tt
  | None => True
  end.

(** The history write of this search throws: a user is signed in and
    [logSearch] throws. *)
Definition historyThrows (db : Supabase) (s : State) (loc : Location)
           (rows : list SearchRow) : Prop :=
  exists u err,
    user s = Some u /\
    logSearch db (user_id u) (searchQuery s) (lat loc) (lng loc)
              (List.length rows) = Thrown err.

(** A failed search: the handler gets past its two checks and one of the
    requests awaited in its [try] block throws. *)
Definition searchFails (db : Supabase) (s : State) : Prop :=
  truthy (trim (searchQuery s)) = true /\
  exists loc,
    userLocation s = Some loc /\
    ((exists err,
        searchMedicines db (searchQuery s) (lat loc) (lng loc) (radius s) =
          Thrown err) \/
     (exists rows,
        searchMedicines db (searchQuery s) (lat loc) (lng loc) (radius s) =
          Returned rows /\
        historyThrows db s loc rows)).

(** A successful search with zero results: the handler gets past its two
    checks, the fetch returns no row and the [try] block runs to its
    end. *)
Definition findsNothing (db : Supabase) (s : State) : Prop :=
  truthy (trim (searchQuery s)) = true /\
  exists loc,
    userLocation s = Some loc /\
    searchMedicines db (searchQuery s) (lat loc) (lng loc) (radius s) =
      Returned [] /\
    historyReturns db s loc [].

(** *** Sample inputs *)

Definition sampleStore : StoreInfo :=
  {| store_name := lit "City Pharmacy"; address := lit "12 Main Road";
     latitude := lit "20.60"; longitude := lit "78.97";
     phone := lit "0712000000" |}.

Definition sampleRow : SearchRow :=
  {| id := lit "m1"; name := lit "Paracetamol"; generic_name := None;
     price := 25%float; quantity := 10; image_url := None;
     distance_km := 1.5%float; stores := sampleStore |}.

Definition sampleLocation : Location := {| lat := 20.5%float; lng := 78.5%float |}.

Definition sampleError : Error := mkError (lit "network down").

(** A page with a query typed in; location and user as given. *)
Definition samplePage (query : jsstring) (loc : option Location)
           (u : option User) : State :=
  mkState query [] false false 10 false None None loc u.

Definition signedIn : option User := Some {| user_id := lit "u1" |}.

Definition blankPage : State :=
  samplePage (lit "   ") (Some sampleLocation) signedIn.

Definition typedPage : State :=
  samplePage (lit "paracetamol") (Some sampleLocation) signedIn.

Definition anonymousPage : State :=
  samplePage (lit "paracetamol") (Some sampleLocation) None.

Definition unlocatedPage : State :=
  samplePage (lit "paracetamol") None signedIn.

Definition emptyUnlocatedPage : State := samplePage [] None signedIn.

(** A location store whose [getUserLocation] rejects. *)
Definition geolocationDenied : Act unit := throw sampleError.

(** Data layers: everything works; the fetch throws; the history write
    throws after a fetch of the given rows. *)
Definition dbUp (rows : list SearchRow) : Supabase :=
  {| searchMedicines := fun _ _ _ _ => Returned rows;
     logSearch := fun _ _ _ _ _ => Returned tt |}.

Definition dbDown : Supabase :=
  {| searchMedicines := fun _ _ _ _ => Thrown sampleError;
     logSearch := fun _ _ _ _ _ => Returned tt |}.

Definition dbHistoryDown (rows : list SearchRow) : Supabase :=
  {| searchMedicines := fun _ _ _ _ => Returned rows;
     logSearch := fun _ _ _ _ _ => Thrown sampleError |}.

End SearchPage.

(* ================================================================== *)
(** ** components/Chatbot.jsx *)
(* ================================================================== *)

Module Chatbot.

(** The code unit of ['*']. *)
Definition star : N := 42.

(** The longest run of code units other than ['*'] at the front of the
    text, and what follows it: the greedy [[^*]+] of the pattern. *)
Fixpoint spanNonStar (s : jsstring) : jsstring * jsstring :=
  match s with
  | c :: t =>
      if (c =? star)%N then ([], s)
      else let '(run, rest) := spanNonStar t in (c :: run, rest)
  | [] => ([], [])
  end.

(** One attempt of [/\*\*([^*]+)\*\*/] at the front of the text: group 1 and
    the text after the match (42 is the code unit of ['*']).  Giving back
    part of the greedy run cannot help, since the unit after a shorter run
    is not a ['*']. *)
Definition matchBold (s : jsstring) : option (jsstring * jsstring) :=
  match s with
  | 42%N :: 42%N :: t =>
      match spanNonStar t with
      | (c :: run, 42%N :: 42%N :: rest) => Some (c :: run, rest)
      | _ => None
      end
  | _ => None
  end.

(** [text.matchAll(boldPattern)] mapped to group 1: the pattern is tried at
    the current index, on failure one unit further, after a match at the
    end of the match.  [fuel] bounds the number of attempts. *)
Fixpoint matchAllBold (fuel : nat) (s : jsstring) : list jsstring :=
  match fuel with
  | O => []
  | S fuel' =>
      match matchBold s with
      | Some (g, rest) => g :: matchAllBold fuel' rest
      | None =>
          match s with
          | [] => []
          | _ :: t => matchAllBold fuel' t
          end
      end
  end.

(** [extractMedicineName], lines 101-106. *)
Definition extractMedicineName (text : jsstring) : list jsstring :=
  matchAllBold (S (List.length text)) text.

(** [Array.prototype.slice(0, n)]. *)
Definition slice0 {A} (n : nat) (l : list A) : list A := firstn n l.

(** The [medicines] field of a bot message ([handleSend], line 135). *)
Definition messageMedicines (botResponse : jsstring) : option (list jsstring) :=
  let medicines := extractMedicineName botResponse in
  if 0 <? List.length medicines then Some medicines else None.

(** The quick-search buttons rendered for a message, lines 278-291. *)
Definition quickSearchButtons (medicines : option (list jsstring)) : list jsstring :=
  match medicines with
  | Some meds => if 0 <? List.length meds then slice0 3 meds else []
  | None => []
  end.

(** *** Vocabulary for stating what is extracted *)

(** A name as the pattern captures it: not empty, no ['*'] inside. *)
Definition validName (m : jsstring) : Prop := m <> [] /\ ~ In star m.

(** A name between its two markers. *)
Definition bold (m : jsstring) : jsstring := [star; star] ++ m ++ [star; star].

(** A text laid out as a first gap, then marked names each followed by a
    gap. *)
Fixpoint weave (gap0 : jsstring) (segs : list (jsstring * jsstring)) : jsstring :=
  match segs with
  | [] => gap0
  | (m, gap) :: rest => gap0 ++ bold m ++ weave gap rest
  end.

(** No marked name lies inside the text. *)
Definition noBold (g : jsstring) : Prop :=
  forall pre m post, validName m -> g <> pre ++ bold m ++ post.

(** *** Sample input *)

Definition sampleAnswer : jsstring :=
  lit "Take **Paracetamol** or **Ibuprofen**. **Paracetamol** is milder; **Cetirizine** for allergy.".

End Chatbot.

(* ================================================================== *)
(** ** pages/customer/FavoritesPage.jsx *)
(* ================================================================== *)

Module FavoritesPage.

(** The store joined to a favorite by [fetchFavorites]; [store_id] is the
    store's [id] column. *)
Record Store := {
  store_id : jsstring;
  store_name : jsstring;
  address : jsstring;
  city : jsstring;
  phone : jsstring;
  rating : option float;
  image_url : option jsstring;
  is_open : bool
}.

Record Favorite := {
  id : jsstring;
  created_at : jsstring;
  stores : option Store
}.

Record State := mkState {
  favorites : list Favorite;
  loading : bool
}.

Definition setFavorites (v : list Favorite) (s : State) : State :=
  mkState v (loading s).

Inductive Effect :=
| CallDelete (favoriteId : jsstring)
| ToastSuccess (msg : jsstring)
| ToastError (msg : jsstring)
| ConsoleError (label : jsstring) (err : Error).

Definition World := Handler.World State Effect.
Definition Act := Handler.Act State Effect.

Local Open Scope act_scope.

(** The awaited [supabase.from('favorites').delete().eq('id', favoriteId)]:
    it resolves to an object whose [error] field is [null] or an error, or
    the await itself throws.  The client is a parameter. *)
Definition DeleteClient := jsstring -> outcome (option Error).

(** [removeFavorite], lines 60-75, is a closure of the render that created
    it: [favorites] is the list that render read from the state, and it is
    that list the closure filters after its [await], whatever the state
    holds by then.  The function runs in two turns of the event loop. *)

(** Up to the [await]: the delete request is issued. *)
Definition removeFavorite_request (favoriteId : jsstring) : Act unit :=
  emit (CallDelete favoriteId).

(** From the [await] on, once the request has settled with [answer]. *)
Definition removeFavorite_resume (favorites : list Favorite)
           (favoriteId : jsstring) (answer : outcome (option Error))
  : Act unit :=
  try_catch
    (error <- settled answer ;;
     match error with
     | Some err => throw err
     | None =>
         update (setFavorites
                   (filter (fun f => negb (streq (id f) favoriteId))
                           favorites)) ;;
         emit (ToastSuccess (lit "Removed from favorites"))
     end)
    (fun error =>
       emit (ConsoleError (lit "Error removing favorite:") error) ;;
       emit (ToastError (lit "Failed to remove"))).

(** Both turns of one closure, with nothing in between. *)
Definition removeFavorite (favorites : list Favorite) (client : DeleteClient)
           (favoriteId : jsstring) : Act unit :=
  removeFavorite_request favoriteId ;;
  removeFavorite_resume favorites favoriteId (client favoriteId).

(** A removal that nothing overlaps: the closure is the one of the render
    that shows [s], and its request settles before anything else happens
    on the page. *)
Definition run (client : DeleteClient) (favoriteId : jsstring) (s : State)
  : outcome unit * World :=
  removeFavorite (favorites s) client favoriteId (mkWorld s []).

(** *** Removals that overlap *)

(** A removal whose request is in flight: the list its closure holds and
    the id it was called with. *)
Record InFlight := {
  closure_favorites : list Favorite;
  closure_id : jsstring
}.

(** What happens on the page: a click on the remove button of an entry,
    and the settling of the request of the [n]-th removal in flight. *)
Inductive PageEvent :=
| Click (favoriteId : jsstring)
| Settle (n : nat) (answer : outcome (option Error)).

(** The page and the removals in flight. *)
Record Browser := mkBrowser { world : World; inFlight : list InFlight }.

(** The remove button of an entry is there while the page is not loading
    (line 77) and the entry is in the list the page shows (lines 126 and
    164). *)
Definition shown (favoriteId : jsstring) (s : State) : bool :=
  negb (loading s) &&
  existsb (fun f => streq (id f) favoriteId) (favorites s).

(** One event.  A click runs the closure of the render that shows the
    current state up to its [await]; a settling request resumes its
    closure, with the list that closure holds.  Clicks on buttons that
    are not there and settlings of requests that are not in flight do
    not happen. *)
Definition step (b : Browser) (ev : PageEvent) : Browser :=
  match ev with
  | Click favoriteId =>
      if shown favoriteId (page (world b)) then
        mkBrowser (snd (removeFavorite_request favoriteId (world b)))
                  (inFlight b ++
                   [{| closure_favorites := favorites (page (world b));
                       closure_id := favoriteId |}])
      else b
  | Settle n answer =>
      match nth_error (inFlight b) n with
      | Some c =>
          mkBrowser (snd (removeFavorite_resume (closure_favorites c)
                                                (closure_id c) answer
                                                (world b)))
                    (firstn n (inFlight b) ++ skipn (S n) (inFlight b))
      | None => b
      end
  end.

(** The events in their order, from a page with nothing in flight. *)
Definition play (events : list PageEvent) (s : State) : Browser :=
  fold_left step events (mkBrowser (mkWorld s []) []).

(** The entries whose id is not [favoriteId], in their order. *)
Definition others (favoriteId : jsstring) (l : list Favorite) : list Favorite :=
  filter (fun f => negb (streq (id f) favoriteId)) l.

(** *** Sample inputs *)

Definition fav (i : string) : Favorite :=
  {| id := lit i; created_at := lit "2025-01-01"; stores := None |}.

Definition samplePage : State :=
  mkState [fav "a"; fav "b"; fav "c"] false.

Definition deleteOk : DeleteClient := fun _ => Returned None.
Definition deleteRefused : DeleteClient :=
  fun _ => Returned (Some (mkError (lit "permission denied"))).
Definition deleteUnreachable : DeleteClient :=
  fun _ => Thrown (mkError (lit "Failed to fetch")).

End FavoritesPage.

(* ================================================================== *)
(** ** The ranking step of the search (data layer) *)
(* ================================================================== *)

Module SearchRanker.

(** Modelled from the spec: the records of the data model (section 3).
    [searchMedicines] of [lib/supabase], which produces the rows the page
    shows, is not among the sources; the ranking it performs is modelled
    here after section 4.3.  Distances and prices are exact rationals. *)
Record Coordinate := { coord_latitude : Q; coord_longitude : Q }.

(** Modelled from the spec: [MedicineRecord] of section 3; [sold_by] is its
    [store_id] field. *)
Record MedicineRecord := {
  medicine_id : string;
  name : string;
  generic_name : option string;
  price : Q;
  quantity : N;
  image_url : option string;
  sold_by : string
}.

(** Modelled from the spec: [StoreRecord] of section 3; [store_id] is its
    [id] field and [location] its latitude and longitude. *)
Record StoreRecord := {
  store_id : string;
  store_name : string;
  address : string;
  location : Coordinate;
  phone : string;
  is_open : bool
}.

(** Modelled from the spec: [SearchResult] of section 3. *)
Record SearchResult := {
  medicine : MedicineRecord;
  store : StoreRecord;
  distance_km : Q
}.

(** Modelled from the spec: a candidate of the glossary, an unranked
    (medicine, store) pair. *)
Definition Candidate : Type := MedicineRecord * StoreRecord.

(** Modelled from the spec: the comparisons [>] and [<] of the ranking
    steps, on exact rationals. *)
Definition Qgtb (a b : Q) : bool :=
  match a ?= b with Gt => true | _ => false end.

Definition Qltb (a b : Q) : bool :=
  match a ?= b with Lt => true | _ => false end.

(** Modelled from the spec: "Deduplicate by (store_id, medicine_id)". *)
Definition sameKey (a b : SearchResult) : bool :=
  String.eqb (store_id (store a)) (store_id (store b)) &&
  String.eqb (medicine_id (medicine a)) (medicine_id (medicine b)).

(** Modelled from the spec: "keeping the lower price on conflict" (the
    first-seen entry stays when the prices tie). *)
Fixpoint insertDedup (r : SearchResult) (acc : list SearchResult)
  : list SearchResult :=
  match acc with
  | [] => [r]
  | x :: rest =>
      if sameKey x r then
        (if Qltb (price (medicine r)) (price (medicine x)) then r else x) :: rest
      else x :: insertDedup r rest
  end.

Definition dedupe (l : list SearchResult) : list SearchResult :=
  fold_left (fun acc r => insertDedup r acc) l [].

(** Modelled from the spec: "Sort ascending by distance_km; ties broken by
    ascending price, then by store name (lexicographic)". *)
Definition rankCompare (a b : SearchResult) : comparison :=
  match distance_km a ?= distance_km b with
  | Eq =>
      match price (medicine a) ?= price (medicine b) with
      | Eq => String.compare (store_name (store a)) (store_name (store b))
      | c => c
      end
  | c => c
  end.

(** Modelled from the spec: the sort of step 4, as an insertion sort on
    the comparison above (stable, so ties on all three keys keep their
    order). *)
Definition rankLeb (a b : SearchResult) : bool :=
  match rankCompare a b with Gt => false | _ => true end.

Fixpoint insertSorted (r : SearchResult) (l : list SearchResult)
  : list SearchResult :=
  match l with
  | [] => [r]
  | x :: rest => if rankLeb r x then r :: l else x :: insertSorted r rest
  end.

Definition sortRanked (l : list SearchResult) : list SearchResult :=
  fold_right insertSorted [] l.

(** Modelled from the spec: "If limit is set, truncate to the first limit
    entries". *)
Definition truncate (limit : option nat) (l : list SearchResult)
  : list SearchResult :=
  match limit with
  | Some n => firstn n l
  | None => l
  end.

Section Rank.

(** Modelled from the spec: [GeoMath.distanceKm], the haversine distance of
    section 4.1.  Ranking only compares its values, so it is a parameter. *)
Variable distanceKm : Coordinate -> Coordinate -> Q.

(** Modelled from the spec: step 1 of [rank], the distance annotation. *)
Definition annotate (origin : Coordinate) (c : Candidate) : SearchResult :=
  {| medicine := fst c;
     store := snd c;
     distance_km := distanceKm origin (location (snd c)) |}.

(** Modelled from the spec: step 2, "Discard candidates where
    distance_km > radiusKm". *)
Definition withinRadius (radiusKm : Q) (r : SearchResult) : bool :=
  negb (Qgtb (distance_km r) radiusKm).

(** Modelled from the spec: [rank(candidates, origin, radiusKm, limit)],
    steps 1 to 5 of section 4.3. *)
Definition rank (candidates : list Candidate) (origin : Coordinate)
           (radiusKm : Q) (limit : option nat) : list SearchResult :=
  truncate limit
    (sortRanked
       (dedupe
          (filter (withinRadius radiusKm)
                  (List.map (annotate origin) candidates)))).

End Rank.

(** *** The order the ranking is meant to produce *)

(** [a] may come before [b]: nearer; or as near and cheaper; or as near,
    as cheap, and the store name not after the other. *)
Definition rankedBefore (a b : SearchResult) : Prop :=
  distance_km a < distance_km b \/
  (distance_km a == distance_km b /\
   (price (medicine a) < price (medicine b) \/
    (price (medicine a) == price (medicine b) /\
     String.leb (store_name (store a)) (store_name (store b)) = true))).

(** Two results for the same store and medicine. *)
Definition keyEq (a b : SearchResult) : Prop :=
  store_id (store a) = store_id (store b) /\
  medicine_id (medicine a) = medicine_id (medicine b).

(** [y] is represented in [l]: some entry has its key and costs no more. *)
Definition covered (y : SearchResult) (l : list SearchResult) : Prop :=
  exists x, In x l /\ keyEq x y /\ price (medicine x) <= price (medicine y).

(** *** Sample inputs (scenario C of the spec) *)

(** A stand-in for the distance: kilometres along the axes of a grid. *)
Definition gridKm (a b : Coordinate) : Q :=
  Qabs (coord_latitude b - coord_latitude a) +
  Qabs (coord_longitude b - coord_longitude a).

Definition sampleOrigin : Coordinate :=
  {| coord_latitude := 0; coord_longitude := 0 |}.

Definition storeAt (sid : string) (km : Q) : StoreRecord :=
  {| store_id := sid; store_name := sid; address := "Main Road";
     location := {| coord_latitude := 0; coord_longitude := km |};
     phone := "0712000000"; is_open := true |}.

Definition medicineAt (sid : string) (p : Q) : MedicineRecord :=
  {| medicine_id := "m1"; name := "Paracetamol"; generic_name := None;
     price := p; quantity := 5; image_url := None; sold_by := sid |}.

Definition atBoundary : Candidate := (medicineAt "s10" 25, storeAt "s10" 10).
Definition beyondBoundary : Candidate :=
  (medicineAt "s11" 20, storeAt "s11" (1001 # 100)).
Definition nearby : Candidate := (medicineAt "s2" 30, storeAt "s2" 2).
Definition nearbyCheap : Candidate := (medicineAt "s4" 12, storeAt "s4" 2).
Definition nearbyTwin : Candidate := (medicineAt "s1" 30, storeAt "s1" 2).

Definition sampleCandidates : list Candidate :=
  [atBoundary; nearby; beyondBoundary; nearbyCheap; nearbyTwin].

End SearchRanker.

(* ================================================================== *)
(** ** store/authStore.js *)
(* ================================================================== *)

Module AuthStore.

(** The signed-in user of a session, as the store and the routes read it. *)
Record User := { id : jsstring; email : jsstring }.

(** A profile: the columns the front end reads or writes. *)
Record Profile := {
  profile_id : jsstring;
  profile_email : jsstring;
  full_name : jsstring;
  role : jsstring
}.

(** A session; [session?.user] may be missing. *)
Record Session := { session_user : option User; access_token : jsstring }.

(** The store's state. *)
Record State := mkState {
  user : option User;
  profile : option Profile;
  session : option Session;
  loading : bool;
  error : option jsstring
}.

(** The state the store is created with. *)
Definition initial : State := mkState None None None true None.

(** [set({ ... })] with the given fields; the others stay. *)
Definition setLoading (v : bool) (s : State) : State :=
  mkState (user s) (profile s) (session s) v (error s).
Definition setError (v : option jsstring) (s : State) : State :=
  mkState (user s) (profile s) (session s) (loading s) v.
Definition setProfile (v : option Profile) (s : State) : State :=
  mkState (user s) v (session s) (loading s) (error s).
Definition setIdentity (u : option User) (se : option Session)
           (p : option Profile) (s : State) : State :=
  mkState u p se (loading s) (error s).

(** The payload of a profile update; the store only passes it on. *)
Record Updates := { new_full_name : option jsstring; new_phone : option jsstring }.

Inductive Effect :=
| CallGetSession
| CallGetProfile (uid : jsstring)
| CallSignIn (mail password : jsstring)
| CallSignUp (mail password fullName userRole phone : jsstring)
| CallSignOut
| CallUpdateProfile (uid : jsstring) (updates : Updates)
| Delay (ms : Z)
| ConsoleError (label : jsstring) (err : Error).

(** [../lib/supabase]: the client and its helpers are parameters, each of
    which may return or throw.  [updateProfiles] is the awaited query of
    [updateProfile], resolving to its [data] and [error] fields. *)
Record Supabase := {
  getSession : outcome (option Session);
  getProfile : jsstring -> outcome (option Profile);
  signIn : jsstring -> jsstring -> outcome (option User * option Session);
  signUp : jsstring -> jsstring -> jsstring -> jsstring -> jsstring ->
           outcome (option User * option Session);
  signOut : outcome unit;
  updateProfiles : jsstring -> Updates -> outcome (option Profile * option Error)
}.

Definition World := Handler.World State Effect.
Definition Act := Handler.Act State Effect.

Local Open Scope act_scope.

(** [get()]. *)
Definition get : Act State := fun w => (Returned (page w), w).

(** [session?.user]. *)
Definition userOf (se : option Session) : option User :=
  match se with Some s => session_user s | None => None end.

Section WithClient.

Variable db : Supabase.

(** [initialize], lines 833-867. *)
Definition initialize : Act unit :=
  try_catch
    (update (setLoading true) ;;
     se <- call CallGetSession (getSession db) ;;
     match userOf se with
     | Some u =>
         p <- call (CallGetProfile (id u)) (getProfile db (id u)) ;;
         update (setIdentity (Some u) se p) ;;
         update (setLoading false) ;;
         update (setError None)
     | None =>
         update (setIdentity None None None) ;;
         update (setLoading false) ;;
         update (setError None)
     end)
    (fun err =>
       emit (ConsoleError (lit "Auth initialization error:") err) ;;
       update (setIdentity None None None) ;;
       update (setLoading false) ;;
       update (setError (Some (message err)))).

(** [register], lines 870-909. *)
Definition register (mail password fullName userRole phone : jsstring)
  : Act (option User * option Session) :=
  try_catch
    (update (setLoading true) ;;
     update (setError None) ;;
     r <- call (CallSignUp mail password fullName userRole phone)
               (signUp db mail password fullName userRole phone) ;;
     match fst r with
     | Some u =>
         emit (Delay 1000) ;;
         try_catch
           (p <- call (CallGetProfile (id u)) (getProfile db (id u)) ;;
            update (setIdentity (Some u) (snd r) p) ;;
            update (setLoading false))
           (fun _ =>
              update (setIdentity (Some u) (snd r)
                        (Some {| profile_id := id u;
                                 profile_email := email u;
                                 full_name := fullName;
                                 role := userRole |})) ;;
              update (setLoading false)) ;;
         ret r
     | None => ret r
     end)
    (fun err =>
       update (setLoading false) ;;
       update (setError (Some (message err))) ;;
       throw err).

(** [login], lines 912-933. *)
Definition login (mail password : jsstring)
  : Act (option User * option Session) :=
  try_catch
    (update (setLoading true) ;;
     update (setError None) ;;
     r <- call (CallSignIn mail password) (signIn db mail password) ;;
     match fst r with
     | Some u =>
         p <- call (CallGetProfile (id u)) (getProfile db (id u)) ;;
         update (setIdentity (Some u) (snd r) p) ;;
         update (setLoading false) ;;
         ret r
     | None => ret r
     end)
    (fun err =>
       update (setLoading false) ;;
       update (setError (Some (message err))) ;;
       throw err).

(** [logout], lines 936-951. *)
Definition logout : Act unit :=
  try_catch
    (update (setLoading true) ;;
     call CallSignOut (signOut db) ;;
     update (setIdentity None None None) ;;
     update (setLoading false) ;;
     update (setError None))
    (fun err =>
       update (setLoading false) ;;
       update (setError (Some (message err))) ;;
       throw err).

(** [updateProfile], lines 954-974. *)
Definition updateProfile (updates : Updates) : Act (option Profile) :=
  try_catch
    (s <- get ;;
     match user s with
     | None => throw (mkError (lit "Not authenticated"))
     | Some u =>
         r <- call (CallUpdateProfile (id u) updates)
                   (updateProfiles db (id u) updates) ;;
         match snd r with
         | Some err => throw err
         | None =>
             update (setProfile (fst r)) ;;
             ret (fst r)
         end
     end)
    (fun err =>
       update (setError (Some (message err))) ;;
       throw err).

(** The listener of [supabase.auth.onAuthStateChange], lines 1003-1024. *)
Definition onAuthStateChange (event : jsstring) (se : option Session)
  : Act unit :=
  match streq event (lit "SIGNED_IN"), userOf se with
  | true, Some u =>
      try_catch
        (p <- call (CallGetProfile (id u)) (getProfile db (id u)) ;;
         update (setIdentity (Some u) se p) ;;
         update (setLoading false))
        (fun err =>
           emit (ConsoleError (lit "Error fetching profile on auth change:") err))
  | _, _ =>
      if streq event (lit "SIGNED_OUT") then
        update (setIdentity None None None) ;;
        update (setLoading false)
      else ret tt
  end.

End WithClient.

(** [clearError], line 977. *)
Definition clearError : Act unit := update (setError None).

(** [profile?.role]. *)
Definition roleOf (p : option Profile) : option jsstring :=
  match p with Some pr => Some (role pr) | None => None end.

(** [x === 'literal'] for a value that may be [undefined]. *)
Definition isRole (r : option jsstring) (literal : jsstring) : bool :=
  match r with Some x => streq x literal | None => false end.

(** [isRetailer] and [isCustomer], lines 980-989. *)
Definition isRetailer (s : State) : bool :=
  isRole (roleOf (profile s)) (lit "retailer").
Definition isCustomer (s : State) : bool :=
  isRole (roleOf (profile s)) (lit "customer").

(** Run an action of the store on a state with an empty log. *)
Definition run {A} (m : Act A) (s : State) : outcome A * World :=
  m (mkWorld s []).

(** *** Actions that overlap *)

(** The actions of the store are [async]: each runs up to an [await], and
    other actions run before it resumes.  [updateProfile], lines 954-974,
    takes two turns of the event loop. *)

(** Up to the [await]: the user is read and the update is requested under
    the user's id; without a user the action ends here, through its
    [catch]. *)
Definition updateProfile_request (updates : Updates) : Act User :=
  try_catch
    (s <- get ;;
     match user s with
     | None => throw (mkError (lit "Not authenticated"))
     | Some u => emit (CallUpdateProfile (id u) updates) ;; ret u
     end)
    (fun err =>
       update (setError (Some (message err))) ;;
       throw err).

(** From the [await] on, once the request has settled with [answer]; the
    user is not read again. *)
Definition updateProfile_resume
           (answer : outcome (option Profile * option Error))
  : Act (option Profile) :=
  try_catch
    (r <- settled answer ;;
     match snd r with
     | Some err => throw err
     | None =>
         update (setProfile (fst r)) ;;
         ret (fst r)
     end)
    (fun err =>
       update (setError (Some (message err))) ;;
       throw err).

(** An [updateProfile] whose request is in flight while another action of
    the store, [between], runs from start to end, and which then resumes
    with [answer].  How [between] ends is its own caller's matter. *)
Definition updateProfile_around {A} (updates : Updates) (between : Act A)
           (answer : outcome (option Profile * option Error))
  : Act (option Profile) :=
  updateProfile_request updates ;;
  try_catch (between ;; ret tt) (fun _ => ret tt) ;;
  updateProfile_resume answer.

(** The identity part of the state. *)
Definition identity (s : State)
  : option User * option Session * option Profile :=
  (user s, session s, profile s).

(** The store is signed out: no user, no session, no profile. *)
Definition signedOut (s : State) : Prop :=
  user s = None /\ session s = None /\ profile s = None.

(** *** Sample inputs *)

Definition alice : User := {| id := lit "u1"; email := lit "alice@example.org" |}.

Definition aliceSession : Session :=
  {| session_user := Some alice; access_token := lit "token" |}.

Definition aliceProfile (r : string) : Profile :=
  {| profile_id := lit "u1"; profile_email := lit "alice@example.org";
     full_name := lit "Alice"; role := lit r |}.

Definition authError : Error := mkError (lit "Invalid login credentials").

Definition signedInState (r : string) : State :=
  mkState (Some alice) (Some (aliceProfile r)) (Some aliceSession) false None.

Definition noUpdates : Updates :=
  {| new_full_name := Some (lit "Alice B."); new_phone := None |}.

(** A client on which everything works for [alice] with this role, and one
    on which every request throws. *)
Definition clientUp (r : string) : Supabase :=
  {| getSession := Returned (Some aliceSession);
     getProfile := fun _ => Returned (Some (aliceProfile r));
     signIn := fun _ _ => Returned (Some alice, Some aliceSession);
     signUp := fun _ _ _ _ _ => Returned (Some alice, Some aliceSession);
     signOut := Returned tt;
     updateProfiles := fun _ _ => Returned (Some (aliceProfile r), None) |}.

Definition clientDown : Supabase :=
  {| getSession := Thrown authError;
     getProfile := fun _ => Thrown authError;
     signIn := fun _ _ => Thrown authError;
     signUp := fun _ _ _ _ _ => Thrown authError;
     signOut := Thrown authError;
     updateProfiles := fun _ _ => Thrown authError |}.

(** Sign-up works, but the profile row is not there yet. *)
Definition clientNoProfileYet : Supabase :=
  {| getSession := Returned (Some aliceSession);
     getProfile := fun _ => Thrown (mkError (lit "no rows"));
     signIn := fun _ _ => Returned (Some alice, Some aliceSession);
     signUp := fun _ _ _ _ _ => Returned (Some alice, Some aliceSession);
     signOut := Returned tt;
     updateProfiles := fun _ _ => Thrown authError |}.

End AuthStore.

(* ================================================================== *)
(** ** App.jsx: route guards *)
(* ================================================================== *)

Module App.

(** What a guard renders. *)
Inductive Element :=
| Spinner
| Navigate (to : jsstring)
| Children.

(** [allowedRoles.includes(profile?.role)]. *)
Definition includes (roles : list jsstring) (r : option jsstring) : bool :=
  existsb (AuthStore.isRole r) roles.

(** [ProtectedRoute], lines 631-651; [allowedRoles] may be left out. *)
Definition ProtectedRoute (allowedRoles : option (list jsstring))
           (s : AuthStore.State) : Element :=
  if AuthStore.loading s then Spinner
  else if negb (present (AuthStore.user s)) then Navigate (lit "/auth")
  else
    match allowedRoles with
    | Some roles =>
        if negb (includes roles (AuthStore.roleOf (AuthStore.profile s)))
        then Navigate (lit "/")
        else Children
    | None => Children
    end.

(** [PublicRoute], lines 654-674. *)
Definition PublicRoute (s : AuthStore.State) : Element :=
  if AuthStore.loading s then Spinner
  else
    match AuthStore.user s, AuthStore.profile s with
    | Some _, Some p =>
        if streq (AuthStore.role p) (lit "retailer")
        then Navigate (lit "/retailer/dashboard")
        else Navigate (lit "/customer/dashboard")
    | _, _ => Children
    end.

(** How a route of the table wraps its page. *)
Inductive Guard :=
| Open
| Public
| Protected (allowedRoles : option (list jsstring)).

Definition render (g : Guard) (s : AuthStore.State) : Element :=
  match g with
  | Open => Children
  | Public => PublicRoute s
  | Protected roles => ProtectedRoute roles s
  end.

(** The [<Routes>] table, lines 726-813: the path of each route under the
    layout route ["/"] (the index route has the empty path) and its guard. *)
Definition routes : list (string * Guard) :=
  [ (EmptyString, Open);
    ("auth"%string, Public);
    ("search"%string, Open);
    ("customer/dashboard"%string, Protected (Some [lit "customer"]));
    ("customer/favorites"%string, Protected (Some [lit "customer"]));
    ("customer/notifications"%string, Protected (Some [lit "customer"]));
    ("retailer/dashboard"%string, Protected (Some [lit "retailer"]));
    ("retailer/stores"%string, Protected (Some [lit "retailer"]));
    ("retailer/inventory"%string, Protected (Some [lit "retailer"]));
    ("retailer/inventory/:storeId"%string, Protected (Some [lit "retailer"]));
    ("profile"%string, Protected None);
    ("*"%string, Open) ].

(** The guard a [Navigate] target lands on.  The targets of the guards are
    static paths of the table, and a static route wins over the splat
    route, so the lookup is by equality with ["/"] followed by the path. *)
Definition guardAt (to : jsstring) : option Guard :=
  match find (fun r => streq (lit "/" ++ lit (fst r)) to) routes with
  | Some r => Some (snd r)
  | None => None
  end.

(** Follow redirects from the route at [here], at most [hops] times: where
    the chain ends and what is rendered there, or [None] when it has not
    ended (or a target is not in the table). *)
Fixpoint settle (hops : nat) (here : jsstring) (g : Guard)
         (s : AuthStore.State) : option (jsstring * Element) :=
  match render g s with
  | Navigate to =>
      match hops, guardAt to with
      | S n, Some g' => settle n to g' s
      | _, _ => None
      end
  | el => Some (here, el)
  end.

(** Where a signed-in user with this role is sent from the auth page. *)
Definition homeOf (r : jsstring) : jsstring :=
  if streq r (lit "retailer") then lit "/retailer/dashboard"
  else if streq r (lit "customer") then lit "/customer/dashboard"
  else lit "/".

End App.

(* ================================================================== *)
(** ** components/Chatbot.jsx: the widget's handlers *)
(* ================================================================== *)

Module ChatWidget.
Import Chatbot.

(** The line feed of a template literal. *)
Definition nl : jsstring := [10%N].

(** [systemPrompt], lines 48-58. *)
Definition systemPrompt : jsstring :=
  lit "You are a helpful medicine assistant for an Emergency Medicine Locator app. Your role is to:
1. Answer questions about medicines, their uses, dosages, and side effects
2. Provide general health information (always recommend consulting a doctor for serious issues)
3. Help users understand what medicine they might need for common symptoms
4. When users ask about finding medicine or pharmacies, suggest they use the search feature

Keep responses concise, helpful, and friendly. Use emojis sparingly for warmth.
If a user mentions a specific medicine name, highlight it so they can search for it.
Always remind users to consult healthcare professionals for medical advice.

Format medicine names in **bold** when mentioning them.".

(** The text sent to the model, line 73. *)
Definition promptFor (userMessage : jsstring) : jsstring :=
  systemPrompt ++ nl ++ nl ++ lit "User: " ++ userMessage ++
  nl ++ nl ++ lit "Assistant:".

(** The part of the response body the widget reads:
    [data.candidates?.[0]?.content?.parts?.[0]?.text]; every step may be
    missing. *)
Record Part := { part_text : option jsstring }.
Record Content := { parts : option (list Part) }.
Record Candidate := { content : option Content }.
Record GeminiData := { candidates : option (list Candidate) }.

(** A response: [response.ok], and what [response.json()] resolves to (the
    JSON value [null] is [None]) unless it throws. *)
Record Response := { ok : bool; json : outcome (option GeminiData) }.

(** [arr?.[0]]. *)
Definition first {A} (l : option (list A)) : option A :=
  match l with Some (x :: _) => Some x | _ => None end.

(** [data.candidates?.[0]?.content?.parts?.[0]?.text]. *)
Definition replyText (data : GeminiData) : option jsstring :=
  match first (candidates data) with
  | Some c =>
      match content c with
      | Some ct =>
          match first (parts ct) with
          | Some p => part_text p
          | None => None
          end
      | None => None
      end
  | None => None
  end.

Definition msg_notProcessed : jsstring :=
  lit "I'm sorry, I couldn't process that. Please try again.".
Definition msg_notConnected : jsstring :=
  lit "I'm having trouble connecting right now. Please try again in a moment.".

(** [a || b] on a string that may be [undefined]. *)
Definition orElse (a : option jsstring) (b : jsstring) : jsstring :=
  match a with
  | Some s => if truthy s then s else b
  | None => b
  end.

(** The TypeError of reading a property of [null]; its message depends on
    the engine. *)
Definition nullRead : Error := mkError (lit "TypeError").

(** A bot or user message of the conversation.  [medicines] is [None] for
    [null] and for a message that has no such field. *)
Inductive Sender := user | bot.

Record Message := {
  id : Z;
  type : Sender;
  text : jsstring;
  timestamp : Z;
  medicines : option (list jsstring)
}.

Record State := mkState {
  isOpen : bool;
  messages : list Message;
  input : jsstring;
  isLoading : bool
}.

Definition setInput (v : jsstring) (s : State) : State :=
  mkState (isOpen s) (messages s) v (isLoading s).
Definition setIsLoading (v : bool) (s : State) : State :=
  mkState (isOpen s) (messages s) (input s) v.
(** [setMessages((prev) => [...prev, m])]. *)
Definition addMessage (m : Message) (s : State) : State :=
  mkState (isOpen s) (messages s ++ [m]) (input s) (isLoading s).

Inductive Effect :=
| CallFetch (prompt : jsstring)
| ConsoleError (label : jsstring) (err : Error).

Definition World := Handler.World State Effect.
Definition Act := Handler.Act State Effect.

Local Open Scope act_scope.

(** The readings of the clock during one [handleSend]: [Date.now()] and
    [new Date()] for the user message, then for the bot message. *)
Record Clock := { userNow : Z; userDate : Z; botNow : Z; botDate : Z }.

Section WithNetwork.

(** [fetch] on the model's endpoint with this prompt: a parameter. *)
Variable fetch : jsstring -> outcome Response.

(** [generateGeminiResponse], lines 47-99. *)
Definition generateGeminiResponse (userMessage : jsstring) : Act jsstring :=
  try_catch
    (response <- call (CallFetch (promptFor userMessage))
                      (fetch (promptFor userMessage)) ;;
     if negb (ok response) then
       throw (mkError (lit "Failed to get response"))
     else
       data <- (fun w => (json response, w)) ;;
       match data with
       | None => throw nullRead
       | Some d => ret (orElse (replyText d) msg_notProcessed)
       end)
    (fun error =>
       emit (ConsoleError (lit "Gemini API error:") error) ;;
       ret msg_notConnected).

Variable clock : Clock.

(** [handleSend], lines 108-139.  [input] and [isLoading] are those of the
    render the handler was created in, here the state at the call. *)
Definition handleSend : Act unit :=
  fun w0 =>
  let st := page w0 in
  (if negb (truthy (trim (input st))) || isLoading st then ret tt
   else
     let userMessage := trim (input st) in
     update (setInput []) ;;
     update (addMessage {| id := userNow clock; type := user;
                           text := userMessage; timestamp := userDate clock;
                           medicines := None |}) ;;
     update (setIsLoading true) ;;
     botResponse <- generateGeminiResponse userMessage ;;
     let names := extractMedicineName botResponse in
     update (addMessage {| id := botNow clock + 1; type := bot;
                           text := botResponse; timestamp := botDate clock;
                           medicines :=
                             if 0 <? List.length names then Some names
                             else None |}) ;;
     update (setIsLoading false)) w0.

End WithNetwork.

Definition run {A} (m : Act A) (s : State) : outcome A * World :=
  m (mkWorld s []).

(** *** [formatMessage] *)

(** [text.split] on the bold pattern with the whole match as its one
    capture group: the text before each match, the match itself, and the
    text after the last match.
    [pending] is the text since the last match; [fuel] bounds the number of
    attempts. *)
Fixpoint splitBold (fuel : nat) (pending s : jsstring) : list jsstring :=
  match fuel with
  | O => [pending ++ s]
  | S fuel' =>
      match matchBold s with
      | Some (g, rest) => pending :: bold g :: splitBold fuel' [] rest
      | None =>
          match s with
          | [] => [pending]
          | c :: t => splitBold fuel' (pending ++ [c]) t
          end
      end
  end.

Definition split (text : jsstring) : list jsstring :=
  splitBold (S (List.length text)) [] text.

(** [part.startsWith('**')] and [part.endsWith('**')]. *)
Definition startsWithStars (part : jsstring) : bool :=
  match part with
  | 42%N :: 42%N :: _ => true
  | _ => false
  end.
Definition endsWithStars (part : jsstring) : bool :=
  startsWithStars (List.rev part).

(** [part.slice(2, -2)]. *)
Definition sliceInner (part : jsstring) : jsstring :=
  firstn (List.length part - 4) (skipn 2 part).

(** What is rendered for one part: a [<strong>] or the text as it is. *)
Inductive Piece :=
| Strong (name : jsstring)
| Plain (s : jsstring).

Definition piece (part : jsstring) : Piece :=
  if startsWithStars part && endsWithStars part then Strong (sliceInner part)
  else Plain part.

(** [formatMessage], lines 155-167. *)
Definition formatMessage (text : jsstring) : list Piece :=
  List.map piece (split text).

(** *** Sample inputs *)

Definition replyWith (t : option jsstring) : Response :=
  {| ok := true;
     json := Returned (Some {| candidates :=
               Some [{| content := Some {| parts :=
                          Some [{| part_text := t |}] |} |}] |}) |}.

Definition answering (t : string) : jsstring -> outcome Response :=
  fun _ => Returned (replyWith (Some (lit t))).


Definition sampleClock : Clock :=
  {| userNow := 1700000000000; userDate := 1700000000000;
     botNow := 1700000001500; botDate := 1700000001500 |}.

Definition greeting : Message :=
  {| id := 1; type := bot; text := lit "Hi!"; timestamp := 0;
     medicines := None |}.

Definition typing (t : string) : State := mkState true [greeting] (lit t) false.

End ChatWidget.

(* ================================================================== *)
(** ** pages/SearchPage.jsx: the location effects *)
(* ================================================================== *)

Module SearchFlow.
Import SearchPage.

Local Open Scope act_scope.

Definition setMapCenter (v : option (float * float)) (s : State) : State :=
  mkState (searchQuery s) (results s) (loading s) (searched s) (radius s)
          (showFilters s) (selectedResult s) v
          (userLocation s) (user s).

(** The effect of lines 86-91: the map follows the user's location. *)
Definition locationEffect : Act unit :=
  fun w0 =>
  match userLocation (page w0) with
  | Some loc => update (setMapCenter (Some (lat loc, lng loc))) w0
  | None => ret tt w0
  end.

(** The page after its mount effect and then its location effect. *)
Definition afterMount (getUserLocation : Act unit) (s : State) : State :=
  page (snd (bind (mountEffect getUserLocation) (fun _ => locationEffect)
                  (mkWorld s []))).

(** The fields [handleSearch] only reads. *)
Definition inputsOf (s : State) :=
  (searchQuery s, radius s, showFilters s, mapCenter s, userLocation s, user s).

End SearchFlow.

(* ================================================================== *)
(** ** pages/customer/FavoritesPage.jsx: loading the list *)
(* ================================================================== *)

Module FavoritesLoad.
Import FavoritesPage.

Inductive Effect :=
| CallSelect (uid : jsstring)
| ToastError (msg : jsstring)
| ConsoleError (label : jsstring) (err : Error).

Definition World := Handler.World State Effect.
Definition Act := Handler.Act State Effect.

Local Open Scope act_scope.

Definition setLoading (v : bool) (s : State) : State :=
  mkState (favorites s) v.

(** The awaited select of the user's favorites, newest first: it resolves
    to its [data] and [error] fields, or throws.  A parameter. *)
Definition SelectClient :=
  jsstring -> outcome (option (list Favorite) * option Error).

(** The TypeError of reading [user.id] without a user; its message depends
    on the engine. *)
Definition nullRead : Error := mkError (lit "TypeError").

(** [data || []]. *)
Definition orEmpty {A} (data : option (list A)) : list A :=
  match data with Some l => l | None => [] end.

(** [fetchFavorites], lines 29-58; [user] is the auth store's. *)
Definition fetchFavorites (client : SelectClient)
           (user : option AuthStore.User) : Act unit :=
  try_catch_finally
    (match user with
     | None => throw nullRead
     | Some u =>
         r <- call (CallSelect (AuthStore.id u)) (client (AuthStore.id u)) ;;
         match snd r with
         | Some err => throw err
         | None => update (setFavorites (orEmpty (fst r)))
         end
     end)
    (fun error =>
       emit (ConsoleError (lit "Error fetching favorites:") error) ;;
       emit (ToastError (lit "Failed to load favorites")))
    (update (setLoading false)).

(** The effect of lines 23-27. *)
Definition userEffect (client : SelectClient) (user : option AuthStore.User)
  : Act unit :=
  if present user then fetchFavorites client user else ret tt.

Definition run (m : Act unit) (s : State) : outcome unit * World :=
  m (mkWorld s []).

(** The state the page is created with. *)
Definition initial : State := mkState [] true.

End FavoritesLoad.

(* ================================================================== *)
(** ** pages/customer/CustomerDashboard.jsx *)
(* ================================================================== *)

Module Dashboard.

(** A row of [search_history], as the dashboard reads it. *)
Record SearchEntry := {
  entry_id : jsstring;
  search_query : jsstring;
  created_at : jsstring
}.

Record Stats := {
  totalSearches : nat;
  favoriteStores : nat;
  activeAlerts : nat
}.

Record State := mkState {
  stats : Stats;
  recentSearches : list SearchEntry;
  favorites : list FavoritesPage.Favorite;
  loading : bool
}.

(** The state the dashboard is created with. *)
Definition initial : State :=
  mkState {| totalSearches := 0; favoriteStores := 0; activeAlerts := 0 |}
          [] [] true.

Definition setRecentSearches (v : list SearchEntry) (s : State) : State :=
  mkState (stats s) v (favorites s) (loading s).
Definition setFavorites (v : list FavoritesPage.Favorite) (s : State) : State :=
  mkState (stats s) (recentSearches s) v (loading s).
Definition setStats (v : Stats) (s : State) : State :=
  mkState v (recentSearches s) (favorites s) (loading s).
Definition setLoading (v : bool) (s : State) : State :=
  mkState (stats s) (recentSearches s) (favorites s) v.

Inductive Effect :=
| CallRecentSearches (uid : jsstring)
| CallFavorites (uid : jsstring)
| CallSearchCount (uid : jsstring)
| CallFavoriteCount (uid : jsstring)
| CallAlertCount (uid : jsstring)
| ToastError (msg : jsstring)
| ConsoleError (label : jsstring) (err : Error).

(** The five awaited queries, as parameters.  The handler reads only the
    [data] or [count] field of each answer ([null] is [None]) and never
    its [error] field. *)
Record Queries := {
  recentOf : jsstring -> outcome (option (list SearchEntry));
  favoritesOf : jsstring -> outcome (option (list FavoritesPage.Favorite));
  searchCountOf : jsstring -> outcome (option nat);
  favoriteCountOf : jsstring -> outcome (option nat);
  alertCountOf : jsstring -> outcome (option nat)
}.

Definition World := Handler.World State Effect.
Definition Act := Handler.Act State Effect.

Local Open Scope act_scope.

(** [count || 0]. *)
Definition orZero (count : option nat) : nat :=
  match count with Some n => n | None => 0 end.

(** [fetchDashboardData], lines 273-324. *)
Definition fetchDashboardData (db : Queries) (user : option AuthStore.User)
  : Act unit :=
  match user with
  | None => ret tt
  | Some u =>
      let uid := AuthStore.id u in
      try_catch_finally
        (searches <- call (CallRecentSearches uid) (recentOf db uid) ;;
         update (setRecentSearches (FavoritesLoad.orEmpty searches)) ;;
         favs <- call (CallFavorites uid) (favoritesOf db uid) ;;
         update (setFavorites (FavoritesLoad.orEmpty favs)) ;;
         searchCount <- call (CallSearchCount uid) (searchCountOf db uid) ;;
         favCount <- call (CallFavoriteCount uid) (favoriteCountOf db uid) ;;
         alertCount <- call (CallAlertCount uid) (alertCountOf db uid) ;;
         update (setStats {| totalSearches := orZero searchCount;
                             favoriteStores := orZero favCount;
                             activeAlerts := orZero alertCount |}))
        (fun error =>
           emit (ConsoleError (lit "Error fetching dashboard data:") error) ;;
           emit (ToastError (lit "Failed to load dashboard data")))
        (update (setLoading false))
  end.

Definition run (m : Act unit) (s : State) : outcome unit * World :=
  m (mkWorld s []).

Definition isToast (ev : Effect) : bool :=
  match ev with ToastError _ => true | _ => false end.

(** All five queries return for this user. *)
Definition allReturn (db : Queries) (uid : jsstring) : Prop :=
  (exists a, recentOf db uid = Returned a) /\
  (exists b, favoritesOf db uid = Returned b) /\
  (exists c, searchCountOf db uid = Returned c) /\
  (exists d, favoriteCountOf db uid = Returned d) /\
  (exists e, alertCountOf db uid = Returned e).

(** *** Sample inputs *)

Definition sampleEntry : SearchEntry :=
  {| entry_id := lit "h1"; search_query := lit "paracetamol";
     created_at := lit "2025-01-01" |}.

(** The lists load, the alert count throws. *)
Definition alertsDown : Queries :=
  {| recentOf := fun _ => Returned (Some [sampleEntry]);
     favoritesOf := fun _ => Returned None;
     searchCountOf := fun _ => Returned (Some 7%nat);
     favoriteCountOf := fun _ => Returned (Some 2%nat);
     alertCountOf := fun _ => Thrown (mkError (lit "timeout")) |}.

Definition allUp : Queries :=
  {| recentOf := fun _ => Returned (Some [sampleEntry]);
     favoritesOf := fun _ => Returned None;
     searchCountOf := fun _ => Returned (Some 7%nat);
     favoriteCountOf := fun _ => Returned None;
     alertCountOf := fun _ => Returned (Some 1%nat) |}.

End Dashboard.

(* ================================================================== *)
(** * Properties *)
(* ================================================================== *)

Unset Implicit Arguments.

(** ** Blank text and [trim] *)

Module JSFacts.

Lemma trimStart_nil (s : jsstring) :
trimStart s = [] <-> isBlank s = true.
Proof.
induction s as [|c t IH]; simpl.
- tauto.
- destruct (isWhiteSpace c); simpl.
  + exact IH.
  + split; discriminate.
Qed.

Lemma trimStart_head (s : jsstring) c t :
trimStart s = c :: t -> isWhiteSpace c = false.
Proof.
induction s as [|d u IH]; simpl; [discriminate|].
destruct (isWhiteSpace d) eqn:Hd; [exact IH|].
intros H; injection H as -> _. exact Hd.
Qed.

Lemma isBlank_rev (s : jsstring) : isBlank (List.rev s) = isBlank s.
Proof.
unfold isBlank. induction s as [|c t IH]; simpl; [reflexivity|].
rewrite forallb_app, IH. simpl. rewrite andb_true_r. apply andb_comm.
Qed.

(** [!text.trim()] holds exactly for blank text. *)
Lemma truthy_trim (s : jsstring) : truthy (trim s) = negb (isBlank s).
Proof.
unfold trim, trimEnd.
destruct (isBlank s) eqn:Hb; simpl.
- apply trimStart_nil in Hb. rewrite Hb. reflexivity.
- destruct (trimStart s) as [|c t] eqn:Hs.
  + apply trimStart_nil in Hs. congruence.
  + pose proof (trimStart_head _ _ _ Hs) as Hc.
    destruct (trimStart (List.rev (c :: t))) as [|d u] eqn:Hr.
    * apply trimStart_nil in Hr. rewrite isBlank_rev in Hr.
      simpl in Hr. rewrite Hc in Hr. discriminate.
    * destruct (List.rev (d :: u)) eqn:Hrev; [|reflexivity].
      apply (f_equal (@List.rev N)) in Hrev.
      rewrite rev_involutive in Hrev. discriminate.
Qed.

Lemma streq_eq (a b : jsstring) : streq a b = true <-> a = b.
Proof.
  revert b. induction a as [|x a IH]; intros [|y b]; simpl;
    try (split; [discriminate | congruence]); [tauto|].
  rewrite andb_true_iff, N.eqb_eq, IH.
  split; [intros [-> ->]; reflexivity | intros H; injection H; auto].
Qed.

Lemma streq_neq (a b : jsstring) : streq a b = false <-> a <> b.
Proof.
  rewrite <- streq_eq. destruct (streq a b); split; congruence.
Qed.

End JSFacts.
Import JSFacts.

(** ** The search handler *)

Module SearchPageFacts.
Import SearchPage.

Section Runs.

Variable db : Supabase.
Variable e : option SubmitEvent.
Variable s : State.

(** The fetch this page state leads to. *)
Let fetch (loc : Location) : outcome (list SearchRow) :=
  searchMedicines db (searchQuery s) (lat loc) (lng loc) (radius s).

Let fetchCall (loc : Location) : Effect :=
  CallSearchMedicines (searchQuery s) (lat loc) (lng loc) (radius s).

Ltac start :=
  unfold run, handleSearch, bind, when, emit, update, call, ret, prelude,
    try_catch_finally, try_catch; simpl;
  rewrite ?truthy_trim.

Lemma run_blank :
  isBlank (searchQuery s) = true ->
  run db e s = (Returned tt, mkWorld s (prelude e ++ [ToastError msg_InvalidQuery])).
Proof.
  intros Hb. start. rewrite Hb. destruct e; reflexivity.
Qed.

Lemma run_no_location :
  isBlank (searchQuery s) = false ->
  userLocation s = None ->
  run db e s = (Returned tt, mkWorld s (prelude e ++ [ToastError msg_MissingLocation])).
Proof.
  intros Hb Hl. start. rewrite Hb, Hl. destruct e; reflexivity.
Qed.

Lemma run_fetch_throws loc err :
  isBlank (searchQuery s) = false ->
  userLocation s = Some loc ->
  fetch loc = Thrown err ->
  run db e s =
    (Returned tt,
     mkWorld (setLoading false (opened s))
             (prelude e ++ [fetchCall loc;
                            ConsoleError (lit "Search error:") err;
                            ToastError msg_SearchFailed])).
Proof.
  unfold fetch, fetchCall. intros Hb Hl Hf. start. rewrite Hb, Hl.
  destruct e; simpl; rewrite Hf; reflexivity.
Qed.

Lemma run_history_throws loc rows u err :
  isBlank (searchQuery s) = false ->
  userLocation s = Some loc ->
  fetch loc = Returned rows ->
  user s = Some u ->
  logSearch db (user_id u) (searchQuery s) (lat loc) (lng loc)
            (List.length rows) = Thrown err ->
  run db e s =
    (Returned tt,
     mkWorld (setLoading false (setResults rows (opened s)))
             (prelude e ++ [fetchCall loc] ++ historyCallOf s loc rows ++
              [ConsoleError (lit "Search error:") err;
               ToastError msg_SearchFailed])).
Proof.
  unfold fetch, fetchCall, historyCallOf. intros Hb Hl Hf Hu Hh. start.
  rewrite Hb, Hl.
  destruct e; simpl; rewrite Hf; simpl; rewrite Hu; simpl; rewrite Hh;
    reflexivity.
Qed.

Lemma run_completes loc rows :
  isBlank (searchQuery s) = false ->
  userLocation s = Some loc ->
  fetch loc = Returned rows ->
  historyReturns db s loc rows ->
  run db e s =
    (Returned tt,
     mkWorld (setLoading false (setResults rows (opened s)))
             (prelude e ++ [fetchCall loc] ++ historyCallOf s loc rows ++
              [resultToast rows])).
Proof.
  unfold fetch, fetchCall, historyCallOf, historyReturns, resultToast.
  intros Hb Hl Hf Hh. start. rewrite Hb, Hl.
  destruct e; simpl; rewrite Hf; simpl;
    (destruct (user s) as [u|]; simpl; [rewrite Hh|]);
    destruct (List.length rows =? 0); reflexivity.
Qed.

End Runs.

Section Observations.

Variable db : Supabase.
Variable e : option SubmitEvent.
Variable s : State.

Ltac observe :=
  unfold toasts, fetchCalls, historyCalls, consoleLines, prelude,
    historyCallOf, resultToast; simpl;
  repeat match goal with
         | |- context [present ?x] => destruct x; simpl
         | |- context [user ?x] => destruct (user x); simpl
         | |- context [List.length ?r =? 0] => destruct (List.length r =? 0); simpl
         end.

(** C3.  A search whose query text is empty or whitespace-only is refused:
    the handler shows the "Please enter a medicine name" error and nothing
    else, calls [searchMedicines] not at all, and leaves the whole page
    state, the results among it, as it was. *)
Theorem blank_query_is_refused :
  isBlank (searchQuery s) = true ->
  fst (run db e s) = Returned tt /\
  toasts (snd (run db e s)) = [ToastError msg_InvalidQuery] /\
  fetchCalls (snd (run db e s)) = [] /\
  historyCalls (snd (run db e s)) = [] /\
  page (snd (run db e s)) = s /\
  results (page (snd (run db e s))) = results s.
Proof.
  intros Hb. rewrite (@run_blank db e s Hb). simpl.
  repeat split; observe; reflexivity.
Qed.

(** C4.  When [searchMedicines] throws, the handler reports the failure
    with the "Search failed. Please try again." error toast and a console
    line, has called [searchMedicines] exactly once (no retry), never calls
    [logSearch], stores no results and resets [loading]. *)
Theorem fetch_failure_is_reported loc err :
  isBlank (searchQuery s) = false ->
  userLocation s = Some loc ->
  searchMedicines db (searchQuery s) (lat loc) (lng loc) (radius s) = Thrown err ->
  fst (run db e s) = Returned tt /\
  toasts (snd (run db e s)) = [ToastError msg_SearchFailed] /\
  consoleLines (snd (run db e s)) = [ConsoleError (lit "Search error:") err] /\
  fetchCalls (snd (run db e s)) =
    [CallSearchMedicines (searchQuery s) (lat loc) (lng loc) (radius s)] /\
  historyCalls (snd (run db e s)) = [] /\
  results (page (snd (run db e s))) = results s /\
  loading (page (snd (run db e s))) = false.
Proof.
  intros Hb Hl Hf. rewrite (@run_fetch_throws db e s loc err Hb Hl Hf). simpl.
  repeat split; observe; reflexivity.
Qed.

(** C1, as the handler has it.  When the fetch returned rows and the
    history write then throws, the rows are already stored as the results
    and [loading] is reset, but the write is awaited inside the same [try]
    as the fetch: its failure is logged to the console and shown as the
    "Search failed. Please try again." error toast, and neither the "Found
    n results" nor the "No medicines found nearby" toast appears. *)
Theorem history_failure_is_surfaced loc rows u err :
  isBlank (searchQuery s) = false ->
  userLocation s = Some loc ->
  searchMedicines db (searchQuery s) (lat loc) (lng loc) (radius s) = Returned rows ->
  user s = Some u ->
  logSearch db (user_id u) (searchQuery s) (lat loc) (lng loc)
            (List.length rows) = Thrown err ->
  fst (run db e s) = Returned tt /\
  results (page (snd (run db e s))) = rows /\
  loading (page (snd (run db e s))) = false /\
  consoleLines (snd (run db e s)) = [ConsoleError (lit "Search error:") err] /\
  toasts (snd (run db e s)) = [ToastError msg_SearchFailed] /\
  ~ In (resultToast rows) (log (snd (run db e s))).
Proof.
  intros Hb Hl Hf Hu Hh.
  rewrite (@run_history_throws db e s loc rows u err Hb Hl Hf Hu Hh). simpl.
  repeat split; try (observe; reflexivity).
  unfold historyCallOf, prelude, resultToast. rewrite Hu.
  intros Hin. rewrite !in_app_iff in Hin. simpl in Hin.
  destruct (present e), (List.length rows =? 0); simpl in Hin;
    intuition discriminate.
Qed.

(** C2, as the handler has it.  After a fetch that returned (zero rows
    included), [logSearch] has been called exactly once, with the user's
    id, the query text, the origin and the number of rows, when a user is
    signed in, and not at all when nobody is signed in; this does not
    depend on how [logSearch] ends. *)
Theorem history_is_logged_for_signed_in_users loc rows :
  isBlank (searchQuery s) = false ->
  userLocation s = Some loc ->
  searchMedicines db (searchQuery s) (lat loc) (lng loc) (radius s) = Returned rows ->
  historyCalls (snd (run db e s)) =
    match user s with
    | Some u => [CallLogSearch (user_id u) (searchQuery s) (lat loc) (lng loc)
                               (List.length rows)]
    | None => []
    end.
Proof.
  intros Hb Hl Hf.
  destruct (user s) as [u|] eqn:Hu.
  - destruct (logSearch db (user_id u) (searchQuery s) (lat loc) (lng loc)
                        (List.length rows)) as [[]|err] eqn:Hh.
    + rewrite (@run_completes db e s loc rows Hb Hl Hf)
        by (unfold historyReturns; rewrite Hu; exact Hh).
      unfold historyCalls, historyCallOf, prelude, resultToast. rewrite Hu. simpl.
      destruct (present e), (List.length rows =? 0); reflexivity.
    + rewrite (@run_history_throws db e s loc rows u err Hb Hl Hf Hu Hh).
      unfold historyCalls, historyCallOf, prelude. rewrite Hu. simpl.
      destruct (present e); reflexivity.
  - rewrite (@run_completes db e s loc rows Hb Hl Hf)
      by (unfold historyReturns; rewrite Hu; exact I).
    unfold historyCalls, historyCallOf, prelude, resultToast. rewrite Hu. simpl.
    destruct (present e), (List.length rows =? 0); reflexivity.
Qed.

(** C6, as the handler has it.  With no location known the handler makes
    no call to [searchMedicines] and leaves the page state untouched, so it
    puts no location in place of the missing one; it shows "Please enable
    location access" when the query text is not blank, and "Please enter a
    medicine name" when it is blank, since the text is checked first.  The
    fixed default (20.5937, 78.9629) comes from the mount effect alone,
    when the location store rejects. *)
Theorem missing_location_is_refused :
  userLocation s = None ->
  fst (run db e s) = Returned tt /\
  fetchCalls (snd (run db e s)) = [] /\
  page (snd (run db e s)) = s /\
  userLocation (page (snd (run db e s))) = None /\
  toasts (snd (run db e s)) =
    [ToastError (if isBlank (searchQuery s) then msg_InvalidQuery
                 else msg_MissingLocation)] /\
  (forall (getUserLocation : Act unit) err w,
     getUserLocation (mkWorld s []) = (Thrown err, w) ->
     userLocation (page (snd (mountEffect getUserLocation (mkWorld s [])))) =
       Some {| lat := defaultLat; lng := defaultLng |}).
Proof.
  intros Hl.
  assert (Hm : forall (getUserLocation : Act unit) err w,
     getUserLocation (mkWorld s []) = (Thrown err, w) ->
     userLocation (page (snd (mountEffect getUserLocation (mkWorld s [])))) =
       Some {| lat := defaultLat; lng := defaultLng |}).
  { intros g err w Hg. unfold mountEffect, try_catch. simpl.
    rewrite Hl. simpl. rewrite Hg. reflexivity. }
  destruct (isBlank (searchQuery s)) eqn:Hb.
  - rewrite (@run_blank db e s Hb). simpl.
    repeat split; try (observe; reflexivity); auto.
  - rewrite (@run_no_location db e s Hb Hl). simpl.
    repeat split; try (observe; reflexivity); auto.
Qed.

End Observations.

(** Every run of the handler is one of five: refused for its text, refused
    for the missing location, failed at the fetch, failed at the history
    write, or run to completion. *)
Lemma run_cases db e s :
  (truthy (trim (searchQuery s)) = false /\
   toasts (snd (run db e s)) = [ToastError msg_InvalidQuery]) \/
  (truthy (trim (searchQuery s)) = true /\ userLocation s = None /\
   toasts (snd (run db e s)) = [ToastError msg_MissingLocation]) \/
  (truthy (trim (searchQuery s)) = true /\
   exists loc err,
     userLocation s = Some loc /\
     searchMedicines db (searchQuery s) (lat loc) (lng loc) (radius s) =
       Thrown err /\
     toasts (snd (run db e s)) = [ToastError msg_SearchFailed] /\
     consoleLines (snd (run db e s)) =
       [ConsoleError (lit "Search error:") err] /\
     results (page (snd (run db e s))) = results s) \/
  (truthy (trim (searchQuery s)) = true /\
   exists loc rows err,
     userLocation s = Some loc /\
     searchMedicines db (searchQuery s) (lat loc) (lng loc) (radius s) =
       Returned rows /\
     historyThrows db s loc rows /\
     toasts (snd (run db e s)) = [ToastError msg_SearchFailed] /\
     consoleLines (snd (run db e s)) =
       [ConsoleError (lit "Search error:") err] /\
     results (page (snd (run db e s))) = rows) \/
  (truthy (trim (searchQuery s)) = true /\
   exists loc rows,
     userLocation s = Some loc /\
     searchMedicines db (searchQuery s) (lat loc) (lng loc) (radius s) =
       Returned rows /\
     historyReturns db s loc rows /\
     toasts (snd (run db e s)) = [resultToast rows] /\
     consoleLines (snd (run db e s)) = [] /\
     results (page (snd (run db e s))) = rows).
Proof.
  rewrite truthy_trim.
  destruct (isBlank (searchQuery s)) eqn:Hb; simpl.
  { left. split; [reflexivity|].
    apply (@blank_query_is_refused db e s Hb). }
  right.
  destruct (userLocation s) as [loc|] eqn:Hl.
  2:{ left. split; [reflexivity|]. split; [reflexivity|].
      pose proof (@run_no_location db e s Hb Hl) as Hrun. rewrite Hrun.
      unfold toasts, prelude. simpl. destruct (present e); reflexivity. }
  right.
  destruct (searchMedicines db (searchQuery s) (lat loc) (lng loc) (radius s))
    as [rows|err] eqn:Hf.
  2:{ left. split; [reflexivity|]. exists loc, err.
      split; [reflexivity|]. split; [exact Hf|].
      pose proof (@run_fetch_throws db e s loc err Hb Hl Hf) as Hrun.
      rewrite Hrun.
      unfold toasts, consoleLines, prelude. simpl.
      destruct (present e); repeat split; reflexivity. }
  right.
  assert (Hdone : historyReturns db s loc rows ->
            toasts (snd (run db e s)) = [resultToast rows] /\
            consoleLines (snd (run db e s)) = [] /\
            results (page (snd (run db e s))) = rows).
  { intros Hh.
    pose proof (@run_completes db e s loc rows Hb Hl Hf Hh) as Hrun.
    rewrite Hrun.
    unfold toasts, consoleLines, prelude, historyCallOf, resultToast. simpl.
    destruct (present e), (user s), (List.length rows =? 0);
      repeat split; reflexivity. }
  destruct (user s) as [u|] eqn:Hu.
  - destruct (logSearch db (user_id u) (searchQuery s) (lat loc) (lng loc)
                        (List.length rows)) as [[]|err] eqn:Hh.
    + right. split; [reflexivity|]. exists loc, rows.
      assert (Hr : historyReturns db s loc rows)
        by (unfold historyReturns; rewrite Hu; exact Hh).
      split; [reflexivity|]. split; [exact Hf|]. split; [exact Hr|].
      exact (Hdone Hr).
    + left. split; [reflexivity|]. exists loc, rows, err.
      pose proof (@run_history_throws db e s loc rows u err Hb Hl Hf Hu Hh)
        as Hrun.
      rewrite Hrun.
      unfold toasts, consoleLines, prelude, historyCallOf. rewrite Hu. simpl.
      destruct (present e); repeat apply conj; try reflexivity;
        try exact Hf; exists u, err; (split; [exact Hu | exact Hh]).
  - right. split; [reflexivity|]. exists loc, rows.
    assert (Hr : historyReturns db s loc rows)
      by (unfold historyReturns; rewrite Hu; exact I).
    split; [reflexivity|]. split; [exact Hf|]. split; [exact Hr|].
    exact (Hdone Hr).
Qed.

(** The two outcomes exclude each other: on one page, with one data layer,
    a search cannot both fail and find nothing. *)
Lemma searchFails_not_findsNothing db s :
  searchFails db s -> findsNothing db s -> False.
Proof.
  intros (_ & loc & Hl & Hfail) (_ & loc' & Hl' & Hf' & Hh').
  rewrite Hl in Hl'. injection Hl' as <-.
  destruct Hfail as [[err Hf]|(rows & Hf & u & err & Hu & Hh)];
    rewrite Hf in Hf'; [discriminate|].
  injection Hf' as ->. unfold historyReturns in Hh'. rewrite Hu in Hh'.
  congruence.
Qed.

(** C5.  For every execution of the handler: it reports "Search failed.
    Please try again.", as an error toast together with a console line,
    exactly when the search failed, and "No medicines found nearby", as a
    plain toast without a console line and over an empty result list,
    exactly when the search succeeded with zero results.  No execution is
    both, the two toasts differ in kind and in text, and so does what any
    failed search shows from what any search with zero results shows. *)
Theorem failure_differs_from_no_results db e s :
  (searchFails db s <->
   toasts (snd (run db e s)) = [ToastError msg_SearchFailed]) /\
  (findsNothing db s <->
   toasts (snd (run db e s)) = [ToastPlain msg_NoResults]) /\
  (searchFails db s ->
   exists err,
     consoleLines (snd (run db e s)) =
       [ConsoleError (lit "Search error:") err]) /\
  (findsNothing db s ->
   consoleLines (snd (run db e s)) = [] /\
   results (page (snd (run db e s))) = []) /\
  ~ (searchFails db s /\ findsNothing db s) /\
  (forall db' e' s',
     searchFails db s -> findsNothing db' s' ->
     toasts (snd (run db e s)) <> toasts (snd (run db' e' s')) /\
     consoleLines (snd (run db e s)) <> consoleLines (snd (run db' e' s')) /\
     uiView (snd (run db e s)) <> uiView (snd (run db' e' s'))).
Proof.
  assert (Hfail : forall db e s,
            searchFails db s <->
            toasts (snd (run db e s)) = [ToastError msg_SearchFailed]).
  { clear. intros db e s. split.
    - intros (Ht & loc & Hl & Hfail).
      destruct (run_cases db e s)
        as [(Ht' & _)|[(_ & Hl' & _)|[(_ & l & er & _ & _ & H & _)|
            [(_ & l & rows & er & _ & _ & _ & H & _)|
             (_ & l & rows & Hl' & Hf & Hh & _)]]]];
        try congruence; try exact H.
      rewrite Hl in Hl'. injection Hl' as <-.
      destruct Hfail as [[err Hf']|(rows' & Hf' & u & err & Hu & Hh')];
        rewrite Hf in Hf'; [discriminate|].
      injection Hf' as <-. unfold historyReturns in Hh. rewrite Hu in Hh.
      congruence.
    - intros Htoast.
      destruct (run_cases db e s)
        as [(_ & H)|[(_ & _ & H)|[(Ht & l & er & Hl & Hf & _)|
            [(Ht & l & rows & er & Hl & Hf & Hh & _)|
             (_ & l & rows & _ & _ & _ & H & _)]]]].
      + rewrite H in Htoast. discriminate.
      + rewrite H in Htoast. discriminate.
      + split; [exact Ht|]. exists l. split; [exact Hl|]. left. eauto.
      + split; [exact Ht|]. exists l. split; [exact Hl|]. right. eauto.
      + rewrite H in Htoast. unfold resultToast in Htoast.
        destruct (List.length rows =? 0); discriminate. }
  assert (Hnone : forall db e s,
            findsNothing db s <->
            toasts (snd (run db e s)) = [ToastPlain msg_NoResults]).
  { clear. intros db e s. split.
    - intros (Ht & loc & Hl & Hf & Hh).
      destruct (run_cases db e s)
        as [(Ht' & _)|[(_ & Hl' & _)|[(_ & l & er & Hl' & Hf' & _)|
            [(_ & l & rows & er & Hl' & Hf' & (u & er' & Hu & Hh') & _)|
             (_ & l & rows & Hl' & Hf' & _ & H & _)]]]];
        try congruence.
      + rewrite Hl in Hl'. injection Hl' as <-.
        rewrite Hf in Hf'. injection Hf' as <-.
        unfold historyReturns in Hh. rewrite Hu in Hh. congruence.
      + rewrite Hl in Hl'. injection Hl' as <-.
        rewrite Hf in Hf'. injection Hf' as <-. exact H.
    - intros Htoast.
      destruct (run_cases db e s)
        as [(_ & H)|[(_ & _ & H)|[(_ & l & er & _ & _ & H & _)|
            [(_ & l & rows & er & _ & _ & _ & H & _)|
             (Ht & l & rows & Hl & Hf & Hh & H & _)]]]];
        try (rewrite H in Htoast; discriminate).
      rewrite H in Htoast. unfold resultToast in Htoast.
      destruct rows as [|r rows]; [|discriminate].
      split; [exact Ht|]. exists l. auto. }
  assert (Hlines : forall db e s,
            (searchFails db s ->
             exists err, consoleLines (snd (run db e s)) =
                           [ConsoleError (lit "Search error:") err]) /\
            (findsNothing db s ->
             consoleLines (snd (run db e s)) = [] /\
             results (page (snd (run db e s))) = [])).
  { clear - Hfail Hnone. intros db e s. split.
    - intros H. apply (Hfail db e s) in H.
      destruct (run_cases db e s)
        as [(_ & H')|[(_ & _ & H')|[(_ & l & er & _ & _ & _ & Hc & _)|
            [(_ & l & rows & er & _ & _ & _ & _ & Hc & _)|
             (_ & l & rows & _ & _ & _ & H' & _)]]]];
        try (rewrite H' in H; discriminate); eauto.
      rewrite H' in H. unfold resultToast in H.
      destruct (List.length rows =? 0); discriminate.
    - intros H. pose proof (proj1 (Hnone db e s) H) as Ht.
      destruct H as (_ & loc & Hl & Hf & Hh).
      destruct (run_cases db e s)
        as [(_ & H')|[(_ & _ & H')|[(_ & l & er & _ & _ & H' & _)|
            [(_ & l & rows & er & _ & _ & _ & H' & _)|
             (_ & l & rows & Hl' & Hf' & _ & _ & Hc & Hr)]]]];
        try (rewrite H' in Ht; discriminate).
      rewrite Hl in Hl'. injection Hl' as <-.
      rewrite Hf in Hf'. injection Hf' as <-. auto. }
  split; [apply Hfail|]. split; [apply Hnone|].
  split; [apply Hlines|]. split; [apply Hlines|].
  split; [intros [H1 H2]; exact (searchFails_not_findsNothing db s H1 H2)|].
  intros db' e' s' H1 H2.
  pose proof (proj1 (Hfail db e s) H1) as T1.
  pose proof (proj1 (Hnone db' e' s') H2) as T2.
  destruct (proj1 (Hlines db e s) H1) as [err C1].
  destruct (proj2 (Hlines db' e' s') H2) as [C2 _].
  unfold uiView. rewrite T1, T2, C1, C2.
  repeat split; intros H; inversion H.
Qed.

(** *** The theorems at the sample inputs *)

Lemma blank_query_is_refused_at_sample :
  isBlank (searchQuery blankPage) = true /\
  toasts (snd (run (dbUp [sampleRow]) (Some FormSubmit) blankPage)) =
    [ToastError msg_InvalidQuery] /\
  fetchCalls (snd (run (dbUp [sampleRow]) (Some FormSubmit) blankPage)) = [].
Proof.
  pose proof (@blank_query_is_refused (dbUp [sampleRow]) (Some FormSubmit)
                blankPage eq_refl) as H.
  split; [reflexivity|]. split; apply H.
Defined.

Lemma fetch_failure_is_reported_at_sample :
  searchMedicines dbDown (searchQuery typedPage) (lat sampleLocation)
                  (lng sampleLocation) (radius typedPage) = Thrown sampleError /\
  toasts (snd (run dbDown None typedPage)) = [ToastError msg_SearchFailed] /\
  historyCalls (snd (run dbDown None typedPage)) = [].
Proof.
  pose proof (@fetch_failure_is_reported dbDown None typedPage sampleLocation
                sampleError eq_refl eq_refl eq_refl) as H.
  split; [reflexivity|]. split; apply H.
Defined.

Lemma history_failure_is_surfaced_at_sample :
  logSearch (dbHistoryDown [sampleRow]) (lit "u1") (searchQuery typedPage)
            (lat sampleLocation) (lng sampleLocation) 1 = Thrown sampleError /\
  results (page (snd (run (dbHistoryDown [sampleRow]) None typedPage))) =
    [sampleRow] /\
  toasts (snd (run (dbHistoryDown [sampleRow]) None typedPage)) =
    [ToastError msg_SearchFailed].
Proof.
  pose proof (@history_failure_is_surfaced (dbHistoryDown [sampleRow]) None
                typedPage sampleLocation [sampleRow] {| user_id := lit "u1" |}
                sampleError eq_refl eq_refl eq_refl eq_refl eq_refl) as H.
  split; [reflexivity|]. split; apply H.
Defined.

Lemma history_is_logged_at_sample :
  searchMedicines (dbUp []) (searchQuery typedPage) (lat sampleLocation)
                  (lng sampleLocation) (radius typedPage) = Returned [] /\
  historyCalls (snd (run (dbUp []) None typedPage)) =
    [CallLogSearch (lit "u1") (lit "paracetamol") (lat sampleLocation)
                   (lng sampleLocation) 0].
Proof.
  split; [reflexivity|].
  exact (@history_is_logged_for_signed_in_users (dbUp []) None typedPage
           sampleLocation [] eq_refl eq_refl eq_refl).
Defined.

Lemma failure_differs_from_no_results_at_sample :
  searchFails dbDown typedPage /\
  searchFails (dbHistoryDown []) typedPage /\
  findsNothing (dbUp []) typedPage /\
  toasts (snd (run dbDown None typedPage)) = [ToastError msg_SearchFailed] /\
  toasts (snd (run (dbHistoryDown []) None typedPage)) =
    [ToastError msg_SearchFailed] /\
  toasts (snd (run (dbUp []) None typedPage)) = [ToastPlain msg_NoResults] /\
  uiView (snd (run (dbHistoryDown []) None typedPage)) <>
  uiView (snd (run (dbUp []) None typedPage)).
Proof.
  assert (F1 : searchFails dbDown typedPage).
  { split; [reflexivity|]. exists sampleLocation. split; [reflexivity|].
    left. exists sampleError. reflexivity. }
  assert (F2 : searchFails (dbHistoryDown []) typedPage).
  { split; [reflexivity|]. exists sampleLocation. split; [reflexivity|].
    right. exists []. split; [reflexivity|].
    exists {| user_id := lit "u1" |}, sampleError. split; reflexivity. }
  assert (N : findsNothing (dbUp []) typedPage).
  { split; [reflexivity|]. exists sampleLocation.
    repeat split; reflexivity. }
  pose proof (failure_differs_from_no_results dbDown None typedPage)
    as (T1 & _).
  pose proof (failure_differs_from_no_results (dbHistoryDown []) None
                typedPage) as (T2 & _ & _ & _ & _ & D).
  pose proof (failure_differs_from_no_results (dbUp []) None typedPage)
    as (_ & T3 & _).
  split; [exact F1|]. split; [exact F2|]. split; [exact N|].
  split; [exact (proj1 T1 F1)|]. split; [exact (proj1 T2 F2)|].
  split; [exact (proj1 T3 N)|].
  exact (proj2 (proj2 (D (dbUp []) None typedPage F2 N))).
Defined.

Lemma missing_location_is_refused_at_sample :
  userLocation unlocatedPage = None /\
  toasts (snd (run (dbUp [sampleRow]) None unlocatedPage)) =
    [ToastError msg_MissingLocation] /\
  fetchCalls (snd (run (dbUp [sampleRow]) None unlocatedPage)) = [] /\
  userLocation (page (snd (run (dbUp [sampleRow]) None unlocatedPage))) = None /\
  userLocation
    (page (snd (mountEffect geolocationDenied (mkWorld unlocatedPage [])))) =
    Some {| lat := defaultLat; lng := defaultLng |}.
Proof.
  pose proof (@missing_location_is_refused (dbUp [sampleRow]) None
                unlocatedPage eq_refl) as (_ & Hfetch & _ & Hloc & Htoast & Hmount).
  split; [reflexivity|]. split; [exact Htoast|]. split; [exact Hfetch|].
  split; [exact Hloc|].
  exact (Hmount geolocationDenied sampleError (mkWorld unlocatedPage [])
                eq_refl).
Defined.

(** *** Where the handler departs from the stated behaviour *)

(** C1 at a concrete input: the fetch returns one row, the history write
    throws, and the user is told that the search failed. *)
Lemma history_failure_fails_the_search :
  searchMedicines (dbHistoryDown [sampleRow]) (searchQuery typedPage)
                  (lat sampleLocation) (lng sampleLocation) (radius typedPage) =
    Returned [sampleRow] /\
  logSearch (dbHistoryDown [sampleRow]) (lit "u1") (searchQuery typedPage)
            (lat sampleLocation) (lng sampleLocation) 1 = Thrown sampleError /\
  toasts (snd (run (dbHistoryDown [sampleRow]) None typedPage)) =
    [ToastError msg_SearchFailed] /\
  ~ In (ToastSuccess (msg_Found 1))
       (log (snd (run (dbHistoryDown [sampleRow]) None typedPage))).
Proof.
  repeat split; try reflexivity.
  vm_compute. intuition discriminate.
Qed.

(** C2 at a concrete input: nobody is signed in, the search completes with
    its "No medicines found nearby" toast, and [logSearch] is not called. *)
Lemma anonymous_search_is_not_logged :
  user anonymousPage = None /\
  fst (run (dbUp []) None anonymousPage) = Returned tt /\
  toasts (snd (run (dbUp []) None anonymousPage)) = [ToastPlain msg_NoResults] /\
  List.length (historyCalls (snd (run (dbUp []) None anonymousPage))) = 0%nat.
Proof.
  repeat split; reflexivity.
Qed.

(** C6 at a concrete input: no location and an empty query; the handler
    reports the query, not the location. *)
Lemma blank_query_hides_missing_location :
  userLocation emptyUnlocatedPage = None /\
  toasts (snd (run (dbUp [sampleRow]) None emptyUnlocatedPage)) =
    [ToastError msg_InvalidQuery] /\
  msg_InvalidQuery <> msg_MissingLocation.
Proof.
  repeat split; try reflexivity. discriminate.
Qed.

End SearchPageFacts.

(** ** The highlighted names of a chatbot answer *)

Module ChatbotFacts.
Import Chatbot.

Lemma spanNonStar_split (s : jsstring) :
  s = fst (spanNonStar s) ++ snd (spanNonStar s) /\
  ~ In star (fst (spanNonStar s)).
Proof.
  induction s as [|c t [IH1 IH2]]; simpl.
  - split; [reflexivity | intros []].
  - destruct (c =? star)%N eqn:Hc.
    + split; [reflexivity | intros []].
    + destruct (spanNonStar t) as [run rest]. simpl in *. split.
      * f_equal. exact IH1.
      * intros [H|H]; [|exact (IH2 H)].
        apply N.eqb_neq in Hc. congruence.
Qed.

(** The greedy run stops exactly where the first ['*'] is. *)
Lemma spanNonStar_run (m rest : jsstring) :
  ~ In star m ->
  spanNonStar (m ++ star :: rest) = (m, star :: rest).
Proof.
  induction m as [|c m IH]; intros Hm; simpl.
  - reflexivity.
  - destruct (c =? star)%N eqn:Hc.
    + apply N.eqb_eq in Hc. exfalso. apply Hm. left. auto.
    + rewrite IH by (intros H; apply Hm; right; exact H). reflexivity.
Qed.

Lemma bold_app (m post : jsstring) :
  bold m ++ post = star :: star :: m ++ star :: star :: post.
Proof.
  unfold bold. simpl. rewrite <- app_assoc. reflexivity.
Qed.

(** A match consumes a marked name at the front, and only that. *)
Lemma matchBold_sound (s g rest : jsstring) :
  matchBold s = Some (g, rest) -> s = bold g ++ rest /\ validName g.
Proof.
  unfold matchBold.
  destruct s as [|a [|b t]]; try discriminate.
  { destruct a as [|p]; [discriminate|].
    repeat (destruct p as [p|p|]; try discriminate). }
  destruct (N.eq_dec a 42) as [->|Ha].
  2:{ destruct a as [|p]; [discriminate|].
      repeat (destruct p as [p|p|]; try discriminate). congruence. }
  destruct (N.eq_dec b 42) as [->|Hb].
  2:{ destruct b as [|p]; [discriminate|].
      repeat (destruct p as [p|p|]; try discriminate). congruence. }
  pose proof (spanNonStar_split t) as [Hsplit Hrun].
  destruct (spanNonStar t) as [[|c run] rs]; simpl in *; [discriminate|].
  destruct rs as [|x [|y rs]]; try discriminate.
  { destruct x as [|p]; [discriminate|].
    repeat (destruct p as [p|p|]; try discriminate). }
  destruct (N.eq_dec x 42) as [->|Hx].
  2:{ destruct x as [|p]; [discriminate|].
      repeat (destruct p as [p|p|]; try discriminate). congruence. }
  destruct (N.eq_dec y 42) as [->|Hy].
  2:{ destruct y as [|p]; [discriminate|].
      repeat (destruct p as [p|p|]; try discriminate). congruence. }
  intros H. injection H as <- <-. split.
  - rewrite Hsplit. unfold star. simpl. rewrite <- app_assoc. reflexivity.
  - split; [discriminate | exact Hrun].
Qed.

(** A marked name at the front is always matched. *)
Lemma matchBold_complete (m post : jsstring) :
  validName m -> matchBold (bold m ++ post) = Some (m, post).
Proof.
  intros [Hne Hm]. rewrite bold_app. unfold matchBold, star.
  change (m ++ 42%N :: 42%N :: post) with (m ++ star :: star :: post).
  rewrite (spanNonStar_run m (star :: post) Hm).
  destruct m; [congruence | reflexivity].
Qed.

Lemma matchBold_shorter (s g rest : jsstring) :
  matchBold s = Some (g, rest) -> (List.length rest < List.length s)%nat.
Proof.
  intros H. apply matchBold_sound in H as [-> _].
  rewrite bold_app. simpl. rewrite length_app. simpl. lia.
Qed.

(** More attempts than the text has units change nothing. *)
Lemma matchAllBold_fuel (n m : nat) (s : jsstring) :
  (List.length s < n)%nat -> (List.length s < m)%nat ->
  matchAllBold n s = matchAllBold m s.
Proof.
  revert m s. induction n as [|n IH]; intros m s Hn Hm; [lia|].
  destruct m as [|m]; [lia|]. simpl.
  destruct (matchBold s) as [[g rest]|] eqn:Hmatch.
  - apply matchBold_shorter in Hmatch. f_equal. apply IH; lia.
  - destruct s as [|c t]; [reflexivity|]. simpl in *. apply IH; lia.
Qed.

Lemma matchAllBold_step (fuel : nat) (s : jsstring) :
  matchAllBold (S fuel) s =
    match matchBold s with
    | Some (g, rest) => g :: matchAllBold fuel rest
    | None => match s with [] => [] | _ :: t => matchAllBold fuel t end
    end.
Proof. reflexivity. Qed.

Lemma extract_match (s g rest : jsstring) :
  matchBold s = Some (g, rest) ->
  extractMedicineName s = g :: extractMedicineName rest.
Proof.
  intros H. unfold extractMedicineName. rewrite matchAllBold_step, H.
  f_equal. apply matchBold_shorter in H. apply matchAllBold_fuel; lia.
Qed.

Lemma extract_skip (c : N) (t : jsstring) :
  matchBold (c :: t) = None ->
  extractMedicineName (c :: t) = extractMedicineName t.
Proof.
  intros H. unfold extractMedicineName. rewrite matchAllBold_step, H.
  reflexivity.
Qed.

Lemma extract_nil : extractMedicineName [] = [].
Proof. reflexivity. Qed.

Lemma matchBold_head (c : N) (t : jsstring) :
  c <> star -> matchBold (c :: t) = None.
Proof.
  intros Hc. unfold matchBold, star in *.
  destruct c as [|p]; [reflexivity|].
  repeat (destruct p as [p|p|]; try reflexivity). congruence.
Qed.

Lemma weave_gap (gap0 : jsstring) (segs : list (jsstring * jsstring)) :
  weave gap0 segs = gap0 ++ weave [] segs.
Proof.
  destruct segs as [|[m g] rest]; simpl; [rewrite app_nil_r|]; reflexivity.
Qed.

Lemma noBold_nil : noBold [].
Proof.
  intros pre m post _ H. symmetry in H.
  apply app_eq_nil in H as [_ H]. discriminate.
Qed.

(** The units the scan steps over hold no marked name. *)
Lemma noBold_cons (c : N) (gap tail : jsstring) :
  matchBold (c :: gap ++ tail) = None -> noBold gap -> noBold (c :: gap).
Proof.
  intros Hnone Hgap pre m post Hm Heq.
  destruct pre as [|p pre].
  - change ([] ++ bold m ++ post) with (bold m ++ post) in Heq.
    change (c :: gap ++ tail) with ((c :: gap) ++ tail) in Hnone.
    rewrite Heq, <- app_assoc in Hnone.
    rewrite (matchBold_complete _ _ Hm) in Hnone. discriminate.
  - change ((p :: pre) ++ bold m ++ post)
      with (p :: pre ++ bold m ++ post) in Heq.
    injection Heq as _ Heq. exact (Hgap pre m post Hm Heq).
Qed.

Lemma extract_decomposes_upto (n : nat) (text : jsstring) :
  (List.length text <= n)%nat ->
  exists gap0 segs,
    text = weave gap0 segs /\
    extractMedicineName text = List.map fst segs /\
    Forall validName (List.map fst segs) /\
    noBold gap0 /\
    Forall noBold (List.map snd segs).
Proof.
  revert text. induction n as [|n IH]; intros text Hlen.
  - destruct text; [|simpl in Hlen; lia].
    exists [], []. repeat split; auto using noBold_nil.
  - destruct text as [|c t].
    { exists [], []. repeat split; auto using noBold_nil. }
    destruct (matchBold (c :: t)) as [[g rest]|] eqn:Hmatch.
    + pose proof (matchBold_shorter _ _ _ Hmatch) as Hshort.
      pose proof (extract_match _ _ _ Hmatch) as Hext.
      apply matchBold_sound in Hmatch as [Htext Hg].
      destruct (IH rest) as (gap & segs & Hrest & Hnames & Hvalid & Hgap & Hgaps).
      { simpl in *. lia. }
      exists [], ((g, gap) :: segs). simpl. repeat split.
      * rewrite Htext, Hrest at 1. reflexivity.
      * rewrite Hext, Hnames. reflexivity.
      * constructor; assumption.
      * apply noBold_nil.
      * constructor; assumption.
    + destruct (IH t) as (gap & segs & Ht & Hnames & Hvalid & Hgap & Hgaps).
      { simpl in Hlen. lia. }
      exists (c :: gap), segs. repeat split; trivial.
      * rewrite weave_gap. simpl. rewrite <- weave_gap. congruence.
      * rewrite (extract_skip _ _ Hmatch). exact Hnames.
      * rewrite Ht, weave_gap in Hmatch. exact (noBold_cons _ _ _ Hmatch Hgap).
Qed.

(** Plain text in front of the next marker is stepped over. *)
Lemma extract_plain (gap rest : jsstring) :
  ~ In star gap ->
  extractMedicineName (gap ++ rest) = extractMedicineName rest.
Proof.
  induction gap as [|c gap IH]; intros Hgap; [reflexivity|].
  simpl. rewrite extract_skip.
  - apply IH. intros H. apply Hgap. right. exact H.
  - apply matchBold_head. intros ->. apply Hgap. left. reflexivity.
Qed.

Lemma extract_weave (segs : list (jsstring * jsstring)) (gap0 : jsstring) :
  ~ In star gap0 ->
  Forall (fun seg => validName (fst seg) /\ ~ In star (snd seg)) segs ->
  extractMedicineName (weave gap0 segs) = List.map fst segs.
Proof.
  revert gap0. induction segs as [|[m g] segs IH]; intros gap0 Hgap Hsegs.
  - simpl. rewrite <- (app_nil_r gap0), extract_plain by assumption.
    reflexivity.
  - inversion Hsegs as [|? ? [Hm Hg] Hrest]; subst.
    change (weave gap0 ((m, g) :: segs)) with (gap0 ++ bold m ++ weave g segs).
    rewrite extract_plain by assumption.
    rewrite (extract_match _ _ _ (matchBold_complete _ _ Hm)).
    simpl. f_equal. apply IH; assumption.
Qed.

Lemma buttons_are_first_three (text : jsstring) :
  quickSearchButtons (messageMedicines text) =
    slice0 3 (extractMedicineName text).
Proof.
  unfold quickSearchButtons, messageMedicines.
  destruct (extractMedicineName text) as [|m ms]; reflexivity.
Qed.

(** C9.  [extractMedicineName] is a function of the text alone.  Every text
    is a first gap followed by marked names [**name**], each followed by a
    gap, such that the names, in this order and with repetitions, are
    exactly what is returned, every name is non-empty and free of ['*'], and
    no gap contains a marked name.  When the gaps are free of ['*'] the
    names written between the markers are returned as written.  The buttons
    shown for a message are the first three extracted names. *)
Theorem extractMedicineName_lists_marked_names :
  (forall text,
     exists gap0 segs,
       text = weave gap0 segs /\
       extractMedicineName text = List.map fst segs /\
       Forall validName (List.map fst segs) /\
       noBold gap0 /\
       Forall noBold (List.map snd segs)) /\
  (forall gap0 segs,
     ~ In star gap0 ->
     Forall (fun seg => validName (fst seg) /\ ~ In star (snd seg)) segs ->
     extractMedicineName (weave gap0 segs) = List.map fst segs) /\
  (forall text,
     quickSearchButtons (messageMedicines text) =
       slice0 3 (extractMedicineName text) /\
     (List.length (quickSearchButtons (messageMedicines text)) <= 3)%nat).
Proof.
  split; [|split].
  - intros text. exact (extract_decomposes_upto _ text (Nat.le_refl (List.length text))).
  - intros gap0 segs. apply extract_weave.
  - intros text. rewrite buttons_are_first_three. split; [reflexivity|].
    unfold slice0. apply firstn_le_length.
Qed.

(** *** The extraction at sample answers *)

Example extract_irregular_markers :
  extractMedicineName (lit "***a**") = [lit "a"] /\
  extractMedicineName (lit "**a**b**") = [lit "a"] /\
  extractMedicineName (lit "****") = [] /\
  extractMedicineName (lit "**a*b**") = [] /\
  extractMedicineName (lit "no markers") = [].
Proof. repeat split; reflexivity. Qed.

Lemma extract_at_sample_answer :
  extractMedicineName sampleAnswer =
    [lit "Paracetamol"; lit "Ibuprofen"; lit "Paracetamol"; lit "Cetirizine"] /\
  quickSearchButtons (messageMedicines sampleAnswer) =
    [lit "Paracetamol"; lit "Ibuprofen"; lit "Paracetamol"].
Proof.
  assert (Hplain : forall g, In g [lit "Take "; lit " or "; lit ". ";
                                   lit " is milder; "; lit " for allergy."] ->
                             ~ In star g).
  { intros g Hg. simpl in Hg.
    repeat (destruct Hg as [<-|Hg];
            [vm_compute; intuition discriminate|]).
    destruct Hg. }
  assert (Hname : forall m, In m [lit "Paracetamol"; lit "Ibuprofen";
                                  lit "Cetirizine"] -> validName m).
  { intros m Hm. simpl in Hm.
    repeat (destruct Hm as [<-|Hm];
            [split; [discriminate | vm_compute; intuition discriminate]|]).
    destruct Hm. }
  pose proof (proj1 (proj2 extractMedicineName_lists_marked_names)
                (lit "Take ")
                [(lit "Paracetamol", lit " or ");
                 (lit "Ibuprofen", lit ". ");
                 (lit "Paracetamol", lit " is milder; ");
                 (lit "Cetirizine", lit " for allergy.")]) as Hnames.
  assert (Hext : extractMedicineName sampleAnswer =
                 [lit "Paracetamol"; lit "Ibuprofen"; lit "Paracetamol";
                  lit "Cetirizine"]).
  { apply Hnames.
    - apply Hplain. simpl. auto.
    - repeat (apply Forall_cons;
              [split; [apply Hname | apply Hplain]; simpl; auto 6|]).
      apply Forall_nil. }
  split; [exact Hext|].
  rewrite (proj1 (proj2 (proj2 extractMedicineName_lists_marked_names)
                   sampleAnswer)), Hext.
  reflexivity.
Defined.

End ChatbotFacts.

(** ** Removing a favorite *)

Module FavoritesPageFacts.
Import FavoritesPage.

Lemma others_In (favoriteId : jsstring) (l : list Favorite) (f : Favorite) :
  In f (others favoriteId l) <-> In f l /\ id f <> favoriteId.
Proof.
  unfold others. rewrite filter_In, negb_true_iff, streq_neq. reflexivity.
Qed.

(** Where one entry has the id and no other has, it is cut out and the
    entries on both sides stay as they are. *)
Lemma others_cut (favoriteId : jsstring) (before after : list Favorite)
      (f : Favorite) :
  id f = favoriteId ->
  (forall g, In g (before ++ after) -> id g <> favoriteId) ->
  others favoriteId (before ++ f :: after) = before ++ after.
Proof.
  intros Hf Hothers. unfold others. rewrite filter_app. simpl.
  assert (Hkeep : forall l, (forall g, In g l -> id g <> favoriteId) ->
                            filter (fun f => negb (streq (id f) favoriteId)) l = l).
  { induction l as [|g l IH]; intros Hl; simpl; [reflexivity|].
    destruct (streq (id g) favoriteId) eqn:Hg.
    - apply streq_eq in Hg. exfalso. apply (Hl g); simpl; auto.
    - simpl. f_equal. apply IH. intros h Hh. apply Hl. simpl. auto. }
  rewrite (proj2 (streq_eq (id f) favoriteId) Hf). simpl.
  rewrite !Hkeep; [reflexivity| |];
    intros g Hg; apply Hothers; rewrite in_app_iff; auto.
Qed.

Lemma run_deleted (client : DeleteClient) (favoriteId : jsstring) (s : State) :
  client favoriteId = Returned None ->
  run client favoriteId s =
    (Returned tt,
     mkWorld (setFavorites (others favoriteId (favorites s)) s)
             [CallDelete favoriteId; ToastSuccess (lit "Removed from favorites")]).
Proof.
  intros H.
  unfold run, removeFavorite, removeFavorite_request, removeFavorite_resume,
    try_catch, bind, settled, emit.
  simpl. rewrite H. reflexivity.
Qed.

Lemma run_not_deleted (client : DeleteClient) (favoriteId : jsstring)
      (s : State) (err : Error) :
  client favoriteId = Returned (Some err) \/ client favoriteId = Thrown err ->
  run client favoriteId s =
    (Returned tt,
     mkWorld s [CallDelete favoriteId;
                ConsoleError (lit "Error removing favorite:") err;
                ToastError (lit "Failed to remove")]).
Proof.
  intros [H|H];
    unfold run, removeFavorite, removeFavorite_request, removeFavorite_resume,
      try_catch, bind, settled, emit;
    simpl; rewrite H; reflexivity.
Qed.

(** A removal that nothing overlaps.  After a deletion that succeeded the
    favorites are the former entries whose id differs from [favoriteId], in
    their former order: no entry with that id is left, every other entry is
    still there, and where exactly one entry has the id the list is the
    former one with that entry cut out.  After a deletion that failed (an
    [error] in the response, or a thrown exception) the page state is the
    former one. *)
Theorem removeFavorite_removes_only_that_entry
        (client : DeleteClient) (favoriteId : jsstring) (s : State) :
  (client favoriteId = Returned None ->
     favorites (page (snd (run client favoriteId s))) =
       others favoriteId (favorites s) /\
     (forall f, In f (favorites (page (snd (run client favoriteId s)))) <->
                In f (favorites s) /\ id f <> favoriteId) /\
     (forall before f after,
        favorites s = before ++ f :: after ->
        id f = favoriteId ->
        (forall g, In g (before ++ after) -> id g <> favoriteId) ->
        favorites (page (snd (run client favoriteId s))) = before ++ after) /\
     loading (page (snd (run client favoriteId s))) = loading s) /\
  (forall err,
     client favoriteId = Returned (Some err) \/ client favoriteId = Thrown err ->
     page (snd (run client favoriteId s)) = s /\
     favorites (page (snd (run client favoriteId s))) = favorites s /\
     log (snd (run client favoriteId s)) =
       [CallDelete favoriteId;
        ConsoleError (lit "Error removing favorite:") err;
        ToastError (lit "Failed to remove")]).
Proof.
  split.
  - intros Hok. rewrite (run_deleted client favoriteId s Hok). simpl.
    split; [reflexivity|]. split; [|split; [|reflexivity]].
    + intros f. apply others_In.
    + intros before f after Hs Hf Hrest. rewrite Hs.
      apply others_cut; assumption.
  - intros err Hfail. rewrite (run_not_deleted client favoriteId s err Hfail).
    simpl. auto.
Qed.

(** *** At the sample page *)

Lemma removeFavorite_at_sample :
  favorites (page (snd (run deleteOk (lit "b") samplePage))) =
    [fav "a"; fav "c"] /\
  favorites (page (snd (run deleteRefused (lit "b") samplePage))) =
    [fav "a"; fav "b"; fav "c"] /\
  favorites (page (snd (run deleteUnreachable (lit "b") samplePage))) =
    [fav "a"; fav "b"; fav "c"].
Proof.
  pose proof (removeFavorite_removes_only_that_entry deleteOk (lit "b")
                samplePage) as [Hok _].
  pose proof (removeFavorite_removes_only_that_entry deleteRefused (lit "b")
                samplePage) as [_ Hrefused].
  pose proof (removeFavorite_removes_only_that_entry deleteUnreachable
                (lit "b") samplePage) as [_ Hdown].
  split; [|split].
  - apply (proj1 (Hok eq_refl)).
  - apply (Hrefused (mkError (lit "permission denied"))). left. reflexivity.
  - apply (Hdown (mkError (lit "Failed to fetch"))). right. reflexivity.
Defined.

(** *** Removals that overlap *)

(** A click whose request settles before anything else happens is the
    removal that nothing overlaps. *)
Lemma click_then_settle (client : DeleteClient) (favoriteId : jsstring)
      (s : State) :
  shown favoriteId s = true ->
  play [Click favoriteId; Settle 0 (client favoriteId)] s =
    mkBrowser (snd (run client favoriteId s)) [].
Proof.
  intros Hs. unfold play, run, removeFavorite, bind. simpl. rewrite Hs.
  reflexivity.
Qed.

(** A request that settles without error writes the list of its closure,
    without the entry it removed, over whatever the page holds. *)
Lemma resume_writes_closure_list (favs : list Favorite)
      (favoriteId : jsstring) (w : World) :
  removeFavorite_resume favs favoriteId (Returned None) w =
    (Returned tt,
     mkWorld (setFavorites (others favoriteId favs) (page w))
             (log w ++ [ToastSuccess (lit "Removed from favorites")])).
Proof.
  reflexivity.
Qed.

(** C10, where the page departs from it.  The page shows a, b and c; the
    remove buttons of a and of b are clicked before either request has
    settled, and both deletions succeed.  When the first request settles
    the page shows b and c.  When the second settles, its closure writes
    the list of its own render without b: the page shows a and c, so the
    entry a, deleted a moment before, is back, where removing b from the
    list b, c leaves c alone. *)
Theorem overlapping_removals_restore_a_removed_entry :
  shown (lit "a") samplePage = true /\
  shown (lit "b")
        (page (world (play [Click (lit "a")] samplePage))) = true /\
  favorites (page (world (play [Click (lit "a"); Click (lit "b");
                                Settle 0 (deleteOk (lit "a"))]
                               samplePage))) =
    [fav "b"; fav "c"] /\
  favorites (page (world (play [Click (lit "a"); Click (lit "b");
                                Settle 0 (deleteOk (lit "a"));
                                Settle 0 (deleteOk (lit "b"))]
                               samplePage))) =
    [fav "a"; fav "c"] /\
  others (lit "b") [fav "b"; fav "c"] = [fav "c"] /\
  log (world (play [Click (lit "a"); Click (lit "b");
                    Settle 0 (deleteOk (lit "a"));
                    Settle 0 (deleteOk (lit "b"))]
                   samplePage)) =
    [CallDelete (lit "a"); CallDelete (lit "b");
     ToastSuccess (lit "Removed from favorites");
     ToastSuccess (lit "Removed from favorites")] /\
  inFlight (play [Click (lit "a"); Click (lit "b");
                  Settle 0 (deleteOk (lit "a"));
                  Settle 0 (deleteOk (lit "b"))]
                 samplePage) = [].
Proof.
  repeat split; reflexivity.
Qed.

End FavoritesPageFacts.

(** ** The ranking step *)

Module SearchRankerFacts.
Import SearchRanker.

(** *** The comparison is the stated order *)

Lemma string_leb_trans (a b c : string) :
  String.leb a b = true -> String.leb b c = true -> String.leb a c = true.
Proof.
  unfold String.leb. intros Hab Hbc.
  destruct (String.compare a b) eqn:Eab; try discriminate;
  destruct (String.compare b c) eqn:Ebc; try discriminate.
  - apply String.compare_eq_iff in Eab. subst. rewrite Ebc. reflexivity.
  - apply String.compare_eq_iff in Eab. subst. rewrite Ebc. reflexivity.
  - apply String.compare_eq_iff in Ebc. subst. rewrite Eab. reflexivity.
  - apply String_as_OT.cmp_lt in Eab, Ebc.
    pose proof (String_as_OT.lt_trans _ _ _ Eab Ebc) as Hac.
    apply String_as_OT.cmp_lt in Hac. unfold String_as_OT.cmp in Hac.
    rewrite Hac. reflexivity.
Qed.

Lemma rankLeb_rankedBefore (a b : SearchResult) :
  rankLeb a b = true <-> rankedBefore a b.
Proof.
  unfold rankLeb, rankCompare, rankedBefore, String.leb.
  destruct (Qcompare_spec (distance_km a) (distance_km b)) as [Hd|Hd|Hd].
  - destruct (Qcompare_spec (price (medicine a)) (price (medicine b)))
      as [Hp|Hp|Hp].
    + destruct (String.compare (store_name (store a)) (store_name (store b)));
        split; intros H; auto; try discriminate;
        destruct H as [H|[_ [H|[_ H]]]]; try discriminate;
        rewrite Hd in H || rewrite Hp in H; exfalso; exact (Qlt_irrefl _ H).
    + split; auto.
    + split; [discriminate|].
      intros [H|[_ [H|[H _]]]].
      * rewrite Hd in H. exfalso. exact (Qlt_irrefl _ H).
      * exfalso. exact (Qlt_irrefl _ (Qlt_trans _ _ _ H Hp)).
      * rewrite H in Hp. exfalso. exact (Qlt_irrefl _ Hp).
  - split; auto.
  - split; [discriminate|].
    intros [H|[H _]].
    + exfalso. exact (Qlt_irrefl _ (Qlt_trans _ _ _ H Hd)).
    + rewrite H in Hd. exfalso. exact (Qlt_irrefl _ Hd).
Qed.

Lemma rankCompare_antisym (a b : SearchResult) :
  rankCompare b a = CompOpp (rankCompare a b).
Proof.
  unfold rankCompare.
  rewrite <- (Qcompare_antisym (distance_km a) (distance_km b)).
  rewrite <- (Qcompare_antisym (price (medicine a)) (price (medicine b))).
  rewrite (String.compare_antisym (store_name (store b))).
  destruct (distance_km a ?= distance_km b); simpl; try reflexivity.
  destruct (price (medicine a) ?= price (medicine b)); reflexivity.
Qed.

(** Of two results, one may come before the other. *)
Lemma rankLeb_total (a b : SearchResult) :
  rankLeb a b = false -> rankedBefore b a.
Proof.
  intros H. apply rankLeb_rankedBefore. unfold rankLeb in *.
  rewrite rankCompare_antisym.
  destruct (rankCompare a b); simpl; congruence.
Qed.

Lemma rankedBefore_trans (a b c : SearchResult) :
  rankedBefore a b -> rankedBefore b c -> rankedBefore a c.
Proof.
  unfold rankedBefore.
  intros [Hab|[Hab Hab']] [Hbc|[Hbc Hbc']].
  - left. lra.
  - left. lra.
  - left. lra.
  - right. split; [lra|].
    destruct Hab' as [Hp|[Hp Hn]], Hbc' as [Hq|[Hq Hm]].
    + left. lra.
    + left. lra.
    + left. lra.
    + right. split; [lra|]. exact (string_leb_trans _ _ _ Hn Hm).
Qed.

(** Two results each of which may come before the other agree on all
    three keys. *)
Lemma rankedBefore_antisym (a b : SearchResult) :
  rankedBefore a b -> rankedBefore b a ->
  distance_km a == distance_km b /\
  price (medicine a) == price (medicine b) /\
  store_name (store a) = store_name (store b).
Proof.
  unfold rankedBefore.
  intros [Hab|[Hab Hab']] [Hba|[Hba Hba']]; try (exfalso; lra).
  destruct Hab' as [Hp|[Hp Hn]], Hba' as [Hq|[Hq Hm]]; try (exfalso; lra).
  repeat split; trivial. exact (String.leb_antisym _ _ Hn Hm).
Qed.

(** *** Sorting *)

Lemma insertSorted_In (r x : SearchResult) (l : list SearchResult) :
  In x (insertSorted r l) <-> x = r \/ In x l.
Proof.
  induction l as [|y l IH]; simpl.
  - intuition.
  - destruct (rankLeb r y); simpl; [intuition|].
    rewrite IH. intuition.
Qed.

Lemma sortRanked_In (x : SearchResult) (l : list SearchResult) :
  In x (sortRanked l) <-> In x l.
Proof.
  induction l as [|y l IH]; simpl; [reflexivity|].
  rewrite insertSorted_In, IH. intuition.
Qed.

Lemma insertSorted_sorted (r : SearchResult) (l : list SearchResult) :
  StronglySorted rankedBefore l ->
  StronglySorted rankedBefore (insertSorted r l).
Proof.
  induction 1 as [|y l Hl IH Hy]; simpl.
  - repeat constructor.
  - destruct (rankLeb r y) eqn:Hry.
    + apply rankLeb_rankedBefore in Hry.
      constructor; [constructor; assumption|].
      constructor; [exact Hry|].
      rewrite Forall_forall in *. intros z Hz.
      exact (rankedBefore_trans _ _ _ Hry (Hy z Hz)).
    + apply rankLeb_total in Hry.
      constructor; [exact IH|].
      rewrite Forall_forall in *. intros z Hz.
      apply insertSorted_In in Hz as [->|Hz]; auto.
Qed.

Lemma sortRanked_sorted (l : list SearchResult) :
  StronglySorted rankedBefore (sortRanked l).
Proof.
  induction l as [|y l IH]; simpl; [constructor|].
  apply insertSorted_sorted. exact IH.
Qed.

Lemma firstn_sorted (n : nat) (l : list SearchResult) :
  StronglySorted rankedBefore l ->
  StronglySorted rankedBefore (firstn n l).
Proof.
  intros Hl. revert n. induction Hl as [|y l Hl IH Hy]; intros [|n]; simpl;
    try constructor.
  - apply IH.
  - rewrite Forall_forall in *. intros z Hz. apply Hy.
    rewrite <- (firstn_skipn n l). apply in_or_app. left. exact Hz.
Qed.

Lemma truncate_In (limit : option nat) (x : SearchResult)
      (l : list SearchResult) :
  In x (truncate limit l) -> In x l.
Proof.
  destruct limit as [n|]; simpl; [|auto].
  intros H. rewrite <- (firstn_skipn n l). apply in_or_app. left. exact H.
Qed.

(** Truncation leaves the list whole, or fills the limit. *)
Lemma truncate_cases (limit : option nat) (l : list SearchResult) :
  truncate limit l = l \/
  exists n, limit = Some n /\ List.length (truncate limit l) = n.
Proof.
  destruct limit as [n|]; simpl; [|auto].
  destruct (Nat.le_gt_cases (List.length l) n) as [H|H].
  - left. apply firstn_all2. exact H.
  - right. exists n. split; [reflexivity|].
    rewrite length_firstn. lia.
Qed.

(** *** Deduplication *)

Lemma sameKey_keyEq (a b : SearchResult) : sameKey a b = true <-> keyEq a b.
Proof.
  unfold sameKey, keyEq. rewrite andb_true_iff, !String.eqb_eq. reflexivity.
Qed.

Lemma keyEq_refl (a : SearchResult) : keyEq a a.
Proof. split; reflexivity. Qed.

Lemma keyEq_sym (a b : SearchResult) : keyEq a b -> keyEq b a.
Proof. intros [H1 H2]. split; congruence. Qed.

Lemma keyEq_trans (a b c : SearchResult) : keyEq a b -> keyEq b c -> keyEq a c.
Proof. intros [H1 H2] [H3 H4]. split; congruence. Qed.

Lemma Qltb_false (a b : Q) : Qltb a b = false -> b <= a.
Proof.
  unfold Qltb. destruct (Qcompare_spec a b) as [H|H|H]; try discriminate;
    intros _; lra.
Qed.

Lemma Qltb_true (a b : Q) : Qltb a b = true -> a < b.
Proof.
  unfold Qltb. destruct (Qcompare_spec a b) as [H|H|H]; try discriminate.
  intros _. exact H.
Qed.

Lemma covered_self (y : SearchResult) (l : list SearchResult) :
  In y l -> covered y l.
Proof.
  intros H. exists y. split; [exact H|]. split; [apply keyEq_refl | lra].
Qed.

Lemma insertDedup_In (r x : SearchResult) (acc : list SearchResult) :
  In x (insertDedup r acc) -> x = r \/ In x acc.
Proof.
  induction acc as [|y acc IH]; simpl.
  - intuition.
  - destruct (sameKey y r).
    + destruct (Qltb (price (medicine r)) (price (medicine y))); simpl;
        intuition.
    + simpl. intuition.
Qed.

Lemma insertDedup_covers (r y : SearchResult) (acc : list SearchResult) :
  y = r \/ In y acc -> covered y (insertDedup r acc).
Proof.
  induction acc as [|z acc IH]; simpl.
  - intros [->|[]]. apply covered_self. simpl. auto.
  - destruct (sameKey z r) eqn:Hk.
    + apply sameKey_keyEq in Hk.
      destruct (Qltb (price (medicine r)) (price (medicine z))) eqn:Hp.
      * apply Qltb_true in Hp.
        intros [->|[<-|Hy]].
        -- apply covered_self. simpl. auto.
        -- exists r. split; [simpl; auto|].
           split; [apply keyEq_sym; exact Hk | lra].
        -- apply covered_self. simpl. auto.
      * apply Qltb_false in Hp.
        intros [->|[<-|Hy]].
        -- exists z. split; [simpl; auto|]. split; assumption.
        -- apply covered_self. simpl. auto.
        -- apply covered_self. simpl. auto.
    + intros [->|[<-|Hy]].
      * destruct (IH (or_introl eq_refl)) as (x & Hx & Hkx & Hpx).
        exists x. split; [simpl; auto|]. split; assumption.
      * apply covered_self. simpl. auto.
      * destruct (IH (or_intror Hy)) as (x & Hx & Hkx & Hpx).
        exists x. split; [simpl; auto|]. split; assumption.
Qed.

Lemma fold_insertDedup_In (l acc : list SearchResult) (x : SearchResult) :
  In x (fold_left (fun acc r => insertDedup r acc) l acc) ->
  In x acc \/ In x l.
Proof.
  revert acc. induction l as [|r l IH]; intros acc; simpl; [auto|].
  intros H. apply IH in H as [H|H]; [|auto].
  apply insertDedup_In in H. intuition.
Qed.

Lemma fold_insertDedup_covers (l acc : list SearchResult) (y : SearchResult) :
  In y acc \/ In y l ->
  covered y (fold_left (fun acc r => insertDedup r acc) l acc).
Proof.
  revert acc y. induction l as [|r l IH]; intros acc y; simpl.
  - intros [H|[]]. apply covered_self. exact H.
  - intros H.
    assert (Hstep : covered y (insertDedup r acc) \/ In y l).
    { destruct H as [H|[<-|H]]; [left|left|right; exact H];
        apply insertDedup_covers; auto. }
    destruct Hstep as [(x & Hx & Hkx & Hpx)|Hy].
    + destruct (IH (insertDedup r acc) x (or_introl Hx))
        as (x' & Hx' & Hkx' & Hpx').
      exists x'. split; [exact Hx'|].
      split; [exact (keyEq_trans _ _ _ Hkx' Hkx) | lra].
    + apply IH. right. exact Hy.
Qed.

Lemma dedupe_In (l : list SearchResult) (x : SearchResult) :
  In x (dedupe l) -> In x l.
Proof.
  intros H. apply fold_insertDedup_In in H as [[]|H]. exact H.
Qed.

Lemma dedupe_covers (l : list SearchResult) (y : SearchResult) :
  In y l -> covered y (dedupe l).
Proof.
  intros H. apply fold_insertDedup_covers. right. exact H.
Qed.

(** *** The radius cut *)

Lemma withinRadius_le (radiusKm : Q) (r : SearchResult) :
  withinRadius radiusKm r = true <-> distance_km r <= radiusKm.
Proof.
  unfold withinRadius, Qgtb.
  destruct (Qcompare_spec (distance_km r) radiusKm) as [H|H|H]; simpl;
    split; intros H'; try reflexivity; try discriminate; lra.
Qed.

Section RankFacts.

Variable distanceKm : Coordinate -> Coordinate -> Q.
Variable candidates : list Candidate.
Variable origin : Coordinate.
Variable radiusKm : Q.

(** The results before truncation keep only what is within the radius. *)
Lemma rank_In (limit : option nat) (r : SearchResult) :
  In r (rank distanceKm candidates origin radiusKm limit) ->
  (exists c, In c candidates /\ r = annotate distanceKm origin c) /\
  distance_km r <= radiusKm.
Proof.
  unfold rank. intros H.
  apply truncate_In, sortRanked_In, dedupe_In, filter_In in H as [Hin Hr].
  apply in_map_iff in Hin as (c & <- & Hc).
  split; [exists c; auto|]. apply withinRadius_le. exact Hr.
Qed.

(** C7.  The sequence that [rank] returns is ordered: of any two results
    the earlier one is nearer, or as near and cheaper, or as near and as
    cheap with a store name that is lexicographically not after the other;
    two results that could stand in either order agree on distance, price
    and store name. *)
Theorem rank_is_sorted (limit : option nat) :
  StronglySorted rankedBefore
    (rank distanceKm candidates origin radiusKm limit) /\
  (forall a b,
     rankedBefore a b -> rankedBefore b a ->
     distance_km a == distance_km b /\
     price (medicine a) == price (medicine b) /\
     store_name (store a) = store_name (store b)).
Proof.
  split; [|exact rankedBefore_antisym].
  unfold rank. destruct limit as [n|]; simpl.
  - apply firstn_sorted, sortRanked_sorted.
  - apply sortRanked_sorted.
Qed.

(** C8.  Every result of [rank] lies within the radius.  A candidate whose
    distance equals the radius passes the cut: the ranking holds a result
    for its store and medicine, at a price not above its own, unless a set
    limit is used up by the results ranked before it.  A candidate whose
    distance exceeds the radius does not pass the cut and is in no
    ranking. *)
Theorem rank_radius_is_inclusive (limit : option nat) :
  (forall r,
     In r (rank distanceKm candidates origin radiusKm limit) ->
     distance_km r <= radiusKm) /\
  (forall c,
     In c candidates ->
     distanceKm origin (location (snd c)) == radiusKm ->
     withinRadius radiusKm (annotate distanceKm origin c) = true /\
     exists r,
       keyEq r (annotate distanceKm origin c) /\
       price (medicine r) <= price (fst c) /\
       distance_km r <= radiusKm /\
       In r (rank distanceKm candidates origin radiusKm None) /\
       (In r (rank distanceKm candidates origin radiusKm limit) \/
        exists n,
          limit = Some n /\
          List.length (rank distanceKm candidates origin radiusKm limit) = n)) /\
  (forall c,
     In c candidates ->
     radiusKm < distanceKm origin (location (snd c)) ->
     withinRadius radiusKm (annotate distanceKm origin c) = false /\
     ~ In (annotate distanceKm origin c)
          (rank distanceKm candidates origin radiusKm limit)).
Proof.
  split; [|split].
  - intros r Hr. apply (rank_In limit r Hr).
  - intros c Hc Hd.
    assert (Hw : withinRadius radiusKm (annotate distanceKm origin c) = true).
    { apply withinRadius_le. simpl. lra. }
    split; [exact Hw|].
    destruct (dedupe_covers
                (filter (withinRadius radiusKm)
                        (List.map (annotate distanceKm origin) candidates))
                (annotate distanceKm origin c)) as (x & Hx & Hkx & Hpx).
    { apply filter_In. split; [|exact Hw]. apply in_map. exact Hc. }
    assert (Hfull : In x (rank distanceKm candidates origin radiusKm None)).
    { unfold rank. simpl. apply sortRanked_In. exact Hx. }
    exists x. split; [exact Hkx|]. split; [exact Hpx|]. split.
    { apply dedupe_In, filter_In in Hx as [_ Hx].
      apply withinRadius_le. exact Hx. }
    split; [exact Hfull|].
    unfold rank in *. simpl in Hfull.
    destruct (truncate_cases limit
                (sortRanked
                   (dedupe
                      (filter (withinRadius radiusKm)
                              (List.map (annotate distanceKm origin) candidates)))))
      as [Hall|Hcut].
    + left. rewrite Hall. exact Hfull.
    + right. exact Hcut.
  - intros c Hc Hd.
    assert (Hw : withinRadius radiusKm (annotate distanceKm origin c) = false).
    { destruct (withinRadius radiusKm (annotate distanceKm origin c)) eqn:E;
        [|reflexivity].
      apply withinRadius_le in E. simpl in E. lra. }
    split; [exact Hw|].
    intros Hin. apply rank_In in Hin as [_ Hin]. simpl in Hin. lra.
Qed.

End RankFacts.

(** *** The ranking at the sample candidates *)

Example rank_sample_order :
  rank gridKm sampleCandidates sampleOrigin 10 None =
    List.map (annotate gridKm sampleOrigin)
             [nearbyCheap; nearbyTwin; nearby; atBoundary] /\
  rank gridKm sampleCandidates sampleOrigin 10 (Some 2%nat) =
    List.map (annotate gridKm sampleOrigin) [nearbyCheap; nearbyTwin].
Proof. split; reflexivity. Qed.

(** Scenario B of the spec: two listings of one medicine at one store,
    prices 10 and 8; the ranking keeps 8. *)
Example rank_keeps_lower_price :
  List.map (fun r => price (medicine r))
           (rank gridKm [(medicineAt "s2" 10, storeAt "s2" 2);
                         (medicineAt "s2" 8, storeAt "s2" 2)]
                 sampleOrigin 10 None) = [8].
Proof. reflexivity. Qed.

Lemma rank_is_sorted_at_sample :
  StronglySorted rankedBefore
    (List.map (annotate gridKm sampleOrigin)
              [nearbyCheap; nearbyTwin; nearby; atBoundary]).
Proof.
  exact (proj1 (rank_is_sorted gridKm sampleCandidates sampleOrigin 10 None)).
Defined.

Lemma rank_radius_at_sample :
  gridKm sampleOrigin (location (snd atBoundary)) == 10 /\
  10 < gridKm sampleOrigin (location (snd beyondBoundary)) /\
  (exists r,
     In r (rank gridKm sampleCandidates sampleOrigin 10 None) /\
     keyEq r (annotate gridKm sampleOrigin atBoundary)) /\
  ~ In (annotate gridKm sampleOrigin beyondBoundary)
       (rank gridKm sampleCandidates sampleOrigin 10 None).
Proof.
  pose proof (rank_radius_is_inclusive gridKm sampleCandidates sampleOrigin
                10 None) as (_ & Hat & Hbeyond).
  assert (H10 : gridKm sampleOrigin (location (snd atBoundary)) == 10)
    by reflexivity.
  assert (H11 : 10 < gridKm sampleOrigin (location (snd beyondBoundary)))
    by reflexivity.
  split; [exact H10|]. split; [exact H11|]. split.
  - destruct (Hat atBoundary) as (_ & r & Hk & _ & _ & Hr & _);
      [simpl; auto|exact H10|].
    exists r. split; assumption.
  - apply (Hbeyond beyondBoundary); [simpl; auto 6|exact H11].
Defined.

End SearchRankerFacts.

(** ** The auth store *)

Module AuthStoreFacts.
Import AuthStore.

(** Split the cases of a statement and close them by congruence. *)
Ltac crush :=
  repeat match goal with
         | H : _ \/ _ |- _ => destruct H
         | H : exists _, _ |- _ => destruct H
         | H : _ /\ _ |- _ => destruct H
         end;
  try congruence.

Ltac act :=
  unfold run, initialize, register, login, logout, updateProfile,
    onAuthStateChange, clearError, get, try_catch, bind, call, update, emit,
    ret, throw; simpl.

(** [initialize] never throws and always ends the loading phase; what it
    leaves does not depend on the state it started from; a user is present
    afterwards only together with the session it came from and no error;
    when the session or profile request throws, the store is signed out and
    holds the error's message. *)
Theorem initialize_settles (db : Supabase) (s : State) :
  fst (run (initialize db) s) = Returned tt /\
  loading (page (snd (run (initialize db) s))) = false /\
  (forall s', page (snd (run (initialize db) s')) =
              page (snd (run (initialize db) s))) /\
  (forall u,
     user (page (snd (run (initialize db) s))) = Some u ->
     userOf (session (page (snd (run (initialize db) s)))) = Some u /\
     getSession db = Returned (session (page (snd (run (initialize db) s)))) /\
     getProfile db (id u) =
       Returned (profile (page (snd (run (initialize db) s)))) /\
     error (page (snd (run (initialize db) s))) = None) /\
  (forall err,
     getSession db = Thrown err \/
     (exists se u, getSession db = Returned se /\ userOf se = Some u /\
                   getProfile db (id u) = Thrown err) ->
     signedOut (page (snd (run (initialize db) s))) /\
     error (page (snd (run (initialize db) s))) = Some (message err)).
Proof.
  act.
  destruct (getSession db) as [se|e] eqn:Hs; simpl;
    [destruct (userOf se) as [u|] eqn:Hu; simpl;
     [destruct (getProfile db (id u)) as [p|e] eqn:Hp; simpl|]|];
    unfold signedOut; simpl; repeat split; intros; crush.
Qed.

(** A login that fails, at sign-in or when the profile is loaded, rethrows
    the error, records its message, ends the loading phase and leaves user,
    session and profile as they were. *)
Theorem login_failure_keeps_identity
        (db : Supabase) (mail password : jsstring) (s : State) (err : Error) :
  signIn db mail password = Thrown err \/
  (exists u se, signIn db mail password = Returned (Some u, se) /\
                getProfile db (id u) = Thrown err) ->
  fst (run (login db mail password) s) = Thrown err /\
  identity (page (snd (run (login db mail password) s))) = identity s /\
  loading (page (snd (run (login db mail password) s))) = false /\
  error (page (snd (run (login db mail password) s))) = Some (message err).
Proof.
  intros [H|(u & se & H & Hp)]; act; rewrite H; simpl; [|rewrite Hp; simpl];
    repeat split.
Qed.

(** A login whose sign-in returns a user and whose profile loads stores
    user, session and profile, ends the loading phase and returns what
    sign-in returned.  When sign-in returns no user, login returns that
    answer without asking for a profile or touching the identity, and the
    loading phase it opened stays open. *)
Theorem login_outcomes
        (db : Supabase) (mail password : jsstring) (s : State) :
  (forall u se p,
     signIn db mail password = Returned (Some u, se) ->
     getProfile db (id u) = Returned p ->
     fst (run (login db mail password) s) = Returned (Some u, se) /\
     identity (page (snd (run (login db mail password) s))) = (Some u, se, p) /\
     loading (page (snd (run (login db mail password) s))) = false /\
     error (page (snd (run (login db mail password) s))) = None) /\
  (forall se,
     signIn db mail password = Returned (None, se) ->
     fst (run (login db mail password) s) = Returned (None, se) /\
     identity (page (snd (run (login db mail password) s))) = identity s /\
     loading (page (snd (run (login db mail password) s))) = true /\
     log (snd (run (login db mail password) s)) = [CallSignIn mail password]).
Proof.
  split.
  - intros u se p H Hp. act. rewrite H. simpl. rewrite Hp. simpl.
    repeat split.
  - intros se H. act. rewrite H. simpl. repeat split.
Qed.

(** A logout that succeeds leaves the store signed out, without error and
    not loading; one that fails rethrows, records the message, ends the
    loading phase and keeps user, session and profile. *)
Theorem logout_outcomes (db : Supabase) (s : State) :
  (signOut db = Returned tt ->
     fst (run (logout db) s) = Returned tt /\
     signedOut (page (snd (run (logout db) s))) /\
     loading (page (snd (run (logout db) s))) = false /\
     error (page (snd (run (logout db) s))) = None) /\
  (forall err,
     signOut db = Thrown err ->
     fst (run (logout db) s) = Thrown err /\
     identity (page (snd (run (logout db) s))) = identity s /\
     loading (page (snd (run (logout db) s))) = false /\
     error (page (snd (run (logout db) s))) = Some (message err)).
Proof.
  split; [intros H | intros err H]; act; rewrite H; simpl;
    unfold signedOut; repeat split.
Qed.

(** Without a user [updateProfile] throws "Not authenticated" before any
    request is made, and records that message; with a user, a request that
    throws or answers with an error is rethrown and its message recorded.
    In all these cases the profile stays as it was, and [updateProfile]
    never changes user, session or loading. *)
Theorem updateProfile_failures
        (db : Supabase) (updates : Updates) (s : State) :
  (user s = None ->
     fst (run (updateProfile db updates) s) =
       Thrown (mkError (lit "Not authenticated")) /\
     log (snd (run (updateProfile db updates) s)) = [] /\
     error (page (snd (run (updateProfile db updates) s))) =
       Some (lit "Not authenticated") /\
     profile (page (snd (run (updateProfile db updates) s))) = profile s) /\
  (forall u err data,
     user s = Some u ->
     updateProfiles db (id u) updates = Thrown err \/
     updateProfiles db (id u) updates = Returned (data, Some err) ->
     fst (run (updateProfile db updates) s) = Thrown err /\
     error (page (snd (run (updateProfile db updates) s))) =
       Some (message err) /\
     profile (page (snd (run (updateProfile db updates) s))) = profile s) /\
  user (page (snd (run (updateProfile db updates) s))) = user s /\
  session (page (snd (run (updateProfile db updates) s))) = session s /\
  loading (page (snd (run (updateProfile db updates) s))) = loading s.
Proof.
  split; [|split].
  - intros H. act. rewrite H. simpl. repeat split.
  - intros u err data H [Hr|Hr]; act; rewrite H; simpl; rewrite Hr; simpl;
      repeat split.
  - act. destruct (user s) as [u|] eqn:Hu; simpl; [|repeat split; congruence].
    destruct (updateProfiles db (id u) updates) as [[data [e|]]|e]; simpl;
      repeat split; congruence.
Qed.

(** When [updateProfile] succeeds the stored profile is the row the request
    returned, which is also the result, and no error is recorded anew. *)
Theorem updateProfile_success
        (db : Supabase) (updates : Updates) (s : State) (u : User)
        (data : option Profile) :
  user s = Some u ->
  updateProfiles db (id u) updates = Returned (data, None) ->
  fst (run (updateProfile db updates) s) = Returned data /\
  profile (page (snd (run (updateProfile db updates) s))) = data /\
  error (page (snd (run (updateProfile db updates) s))) = error s /\
  log (snd (run (updateProfile db updates) s)) =
    [CallUpdateProfile (id u) updates].
Proof.
  intros H Hr. act. rewrite H. simpl. rewrite Hr. simpl. repeat split.
Qed.

(** When sign-up returns a user but the profile cannot be loaded yet,
    [register] does not fail: after the one-second wait it stores the user
    and the session with a profile made of the user's id and email and the
    name and role that were given, and returns what sign-up returned. *)
Theorem register_falls_back_to_given_profile
        (db : Supabase) (mail password fullName userRole phone : jsstring)
        (s : State) (u : User) (se : option Session) (err : Error) :
  signUp db mail password fullName userRole phone = Returned (Some u, se) ->
  getProfile db (id u) = Thrown err ->
  fst (run (register db mail password fullName userRole phone) s) =
    Returned (Some u, se) /\
  identity (page (snd (run (register db mail password fullName userRole phone) s))) =
    (Some u, se,
     Some {| profile_id := id u; profile_email := email u;
             full_name := fullName; role := userRole |}) /\
  loading (page (snd (run (register db mail password fullName userRole phone) s))) =
    false /\
  error (page (snd (run (register db mail password fullName userRole phone) s))) =
    None /\
  log (snd (run (register db mail password fullName userRole phone) s)) =
    [CallSignUp mail password fullName userRole phone; Delay 1000;
     CallGetProfile (id u)].
Proof.
  intros H Hp. act. rewrite H. simpl. rewrite Hp. simpl. repeat split.
Qed.

(** The auth listener: SIGNED_OUT signs the store out and ends the loading
    phase without any request; SIGNED_IN whose profile request throws
    changes nothing; an event that is neither SIGNED_OUT nor SIGNED_IN
    with a user changes nothing and has no effect at all. *)
Theorem auth_listener_outcomes (db : Supabase) (s : State) :
  (forall se,
     signedOut (page (snd (run (onAuthStateChange db (lit "SIGNED_OUT") se) s))) /\
     loading (page (snd (run (onAuthStateChange db (lit "SIGNED_OUT") se) s))) =
       false /\
     error (page (snd (run (onAuthStateChange db (lit "SIGNED_OUT") se) s))) =
       error s /\
     log (snd (run (onAuthStateChange db (lit "SIGNED_OUT") se) s)) = []) /\
  (forall se u err,
     userOf se = Some u ->
     getProfile db (id u) = Thrown err ->
     run (onAuthStateChange db (lit "SIGNED_IN") se) s =
       (Returned tt,
        mkWorld s [CallGetProfile (id u);
                   ConsoleError (lit "Error fetching profile on auth change:")
                                err])) /\
  (forall event se,
     event <> lit "SIGNED_OUT" ->
     event <> lit "SIGNED_IN" \/ userOf se = None ->
     run (onAuthStateChange db event se) s = (Returned tt, mkWorld s [])).
Proof.
  split; [|split].
  - intros se. unfold run, onAuthStateChange.
    change (streq (lit "SIGNED_OUT") (lit "SIGNED_IN")) with false.
    change (streq (lit "SIGNED_OUT") (lit "SIGNED_OUT")) with true.
    unfold signedOut. act. repeat split.
  - intros se u err Hu Hp. unfold run, onAuthStateChange.
    change (streq (lit "SIGNED_IN") (lit "SIGNED_IN")) with true.
    rewrite Hu. act. rewrite Hp. simpl. destruct s; reflexivity.
  - intros event se Hout Hin. unfold run, onAuthStateChange.
    apply streq_neq in Hout. rewrite Hout.
    destruct Hin as [Hin|Hin].
    + apply streq_neq in Hin. rewrite Hin. destruct s; reflexivity.
    + rewrite Hin. destruct (streq event (lit "SIGNED_IN"));
        destruct s; reflexivity.
Qed.

(** Run back to back, the two turns of [updateProfile] are the action. *)
Lemma updateProfile_in_two_turns (db : Supabase) (updates : Updates)
      (w : World) :
  updateProfile db updates w =
    bind (updateProfile_request updates)
         (fun u => updateProfile_resume (updateProfiles db (id u) updates)) w.
Proof.
  unfold updateProfile, updateProfile_request, updateProfile_resume.
  act. unfold settled, get. simpl.
  destruct (user (page w)) as [u|]; simpl; [|reflexivity].
  destruct (updateProfiles db (id u) updates) as [[p [err|]]|err];
    reflexivity.
Qed.

(** [updateProfile] checks for a user before its request and not after
    it.  When a sign-out runs while the request is in flight, by [logout]
    or by the SIGNED_OUT event, and the request then answers without
    error, the action returns the row and stores it as the profile of a
    store that holds no user and no session; nothing else is written and no
    error is recorded. *)
Theorem updateProfile_writes_after_sign_out
        (db : Supabase) (updates : Updates) (s : State) (u : User)
        (row : option Profile) :
  user s = Some u ->
  signOut db = Returned tt ->
  run (updateProfile_around updates (logout db) (Returned (row, None))) s =
    (Returned row,
     mkWorld (mkState None row None false None)
             [CallUpdateProfile (id u) updates; CallSignOut]) /\
  run (updateProfile_around updates
         (onAuthStateChange db (lit "SIGNED_OUT") None)
         (Returned (row, None))) s =
    (Returned row,
     mkWorld (mkState None row None false (error s))
             [CallUpdateProfile (id u) updates]).
Proof.
  intros Hu Hout. split.
  - unfold run, updateProfile_around, updateProfile_request,
      updateProfile_resume, logout.
    act. unfold settled, get. simpl. rewrite Hu. simpl. rewrite Hout.
    reflexivity.
  - unfold run, updateProfile_around, updateProfile_request,
      updateProfile_resume, onAuthStateChange.
    change (streq (lit "SIGNED_OUT") (lit "SIGNED_IN")) with false.
    change (streq (lit "SIGNED_OUT") (lit "SIGNED_OUT")) with true.
    act. unfold settled, get. simpl. rewrite Hu. reflexivity.
Qed.

(** A profile has one role: [isRetailer] and [isCustomer] never both hold,
    and neither holds without a profile. *)
Theorem roles_exclude_each_other (s : State) :
  isRetailer s && isCustomer s = false /\
  (profile s = None -> isRetailer s = false /\ isCustomer s = false).
Proof.
  unfold isRetailer, isCustomer, isRole, roleOf. split.
  - destruct (profile s) as [p|]; [|reflexivity].
    destruct (streq (role p) (lit "retailer")) eqn:H; [|reflexivity].
    apply streq_eq in H. rewrite H. reflexivity.
  - intros ->. split; reflexivity.
Qed.

(** *** The theorems at the sample clients *)

Lemma login_failure_at_sample :
  signIn clientDown (lit "alice@example.org") (lit "wrong") = Thrown authError /\
  fst (run (login clientDown (lit "alice@example.org") (lit "wrong"))
           (signedInState "customer")) = Thrown authError /\
  identity (page (snd (run (login clientDown (lit "alice@example.org")
                                  (lit "wrong"))
                           (signedInState "customer")))) =
    identity (signedInState "customer").
Proof.
  pose proof (login_failure_keeps_identity clientDown (lit "alice@example.org")
                (lit "wrong") (signedInState "customer") authError
                (or_introl eq_refl)) as (H1 & H2 & _).
  split; [reflexivity|]. split; assumption.
Defined.

Lemma updateProfile_success_at_sample :
  user (signedInState "customer") = Some alice /\
  profile (page (snd (run (updateProfile (clientUp "customer") noUpdates)
                          (signedInState "customer")))) =
    Some (aliceProfile "customer").
Proof.
  split; [reflexivity|].
  exact (proj1 (proj2 (updateProfile_success (clientUp "customer") noUpdates
                         (signedInState "customer") alice
                         (Some (aliceProfile "customer")) eq_refl eq_refl))).
Defined.

Lemma register_fallback_at_sample :
  getProfile clientNoProfileYet (id alice) = Thrown (mkError (lit "no rows")) /\
  profile (page (snd (run (register clientNoProfileYet
                                    (lit "alice@example.org") (lit "secret")
                                    (lit "Alice") (lit "retailer")
                                    (lit "0712000000"))
                          initial))) =
    Some {| profile_id := lit "u1"; profile_email := lit "alice@example.org";
            full_name := lit "Alice"; role := lit "retailer" |}.
Proof.
  split; [reflexivity|].
  pose proof (register_falls_back_to_given_profile clientNoProfileYet
                (lit "alice@example.org") (lit "secret") (lit "Alice")
                (lit "retailer") (lit "0712000000") initial alice
                (Some aliceSession) (mkError (lit "no rows"))
                eq_refl eq_refl) as (_ & H & _).
  exact (f_equal snd H).
Defined.

Lemma updateProfile_after_sign_out_at_sample :
  user (signedInState "customer") = Some alice /\
  signOut (clientUp "customer") = Returned tt /\
  user (page (snd (run (updateProfile_around noUpdates
                          (logout (clientUp "customer"))
                          (Returned (Some (aliceProfile "customer"), None)))
                       (signedInState "customer")))) = None /\
  profile (page (snd (run (updateProfile_around noUpdates
                             (logout (clientUp "customer"))
                             (Returned (Some (aliceProfile "customer"), None)))
                          (signedInState "customer")))) =
    Some (aliceProfile "customer").
Proof.
  pose proof (updateProfile_writes_after_sign_out (clientUp "customer")
                noUpdates (signedInState "customer") alice
                (Some (aliceProfile "customer")) eq_refl eq_refl) as [H _].
  split; [reflexivity|]. split; [reflexivity|].
  rewrite H. split; reflexivity.
Defined.

End AuthStoreFacts.

(** ** The route guards *)

Module AppFacts.
Import App.

Lemma includes_In (roles : list jsstring) (r : option jsstring) :
  includes roles r = true <-> exists x, r = Some x /\ In x roles.
Proof.
  unfold includes. rewrite existsb_exists. split.
  - intros (y & Hy & Hr). destruct r as [x|]; [|discriminate].
    simpl in Hr. apply streq_eq in Hr. rewrite Hr. exists y. auto.
  - intros (x & -> & Hx). exists x. split; [exact Hx|].
    simpl. apply streq_eq. reflexivity.
Qed.

Lemma ProtectedRoute_children (roles : list jsstring) (s : AuthStore.State) :
  render (Protected (Some roles)) s = Children ->
  exists x, AuthStore.roleOf (AuthStore.profile s) = Some x /\ In x roles.
Proof.
  simpl. unfold ProtectedRoute.
  destruct (AuthStore.loading s); [discriminate|].
  destruct (negb (present (AuthStore.user s))); [discriminate|].
  destruct (includes roles (AuthStore.roleOf (AuthStore.profile s))) eqn:Hi;
    [|discriminate].
  intros _. apply includes_In. exact Hi.
Qed.

(** A protected page is rendered exactly when the store is not loading, a
    user is signed in and, where roles are demanded, a profile is held and
    its role is one of them; so a user without a profile never sees a page
    that demands a role. *)
Theorem ProtectedRoute_renders_iff
        (allowedRoles : option (list jsstring)) (s : AuthStore.State) :
  ProtectedRoute allowedRoles s = Children <->
  AuthStore.loading s = false /\
  AuthStore.user s <> None /\
  (forall roles,
     allowedRoles = Some roles ->
     exists p, AuthStore.profile s = Some p /\ In (AuthStore.role p) roles).
Proof.
  unfold ProtectedRoute.
  destruct (AuthStore.loading s); simpl.
  { split; [discriminate | intros [H _]; discriminate]. }
  destruct (AuthStore.user s) as [u|]; simpl.
  2:{ split; [discriminate | intros (_ & H & _); congruence]. }
  destruct allowedRoles as [roles|].
  - destruct (includes roles (AuthStore.roleOf (AuthStore.profile s))) eqn:Hi;
      simpl.
    + apply includes_In in Hi as (x & Hx & Hin).
      split; [|reflexivity]. intros _.
      split; [reflexivity|]. split; [discriminate|].
      intros roles' Hr. injection Hr as <-.
      destruct (AuthStore.profile s) as [p|]; [|discriminate].
      exists p. simpl in Hx. injection Hx as <-. auto.
    + split; [discriminate|]. intros (_ & _ & H).
      destruct (H roles eq_refl) as (p & Hp & Hin).
      assert (includes roles (AuthStore.roleOf (AuthStore.profile s)) = true).
      { apply includes_In. exists (AuthStore.role p). rewrite Hp. auto. }
      congruence.
  - split; [|reflexivity]. intros _.
    split; [reflexivity|]. split; [discriminate|]. discriminate.
Qed.

(** The guards a redirect can land on. *)
Lemma guardAt_targets :
  guardAt (lit "/auth") = Some Public /\
  guardAt (lit "/") = Some Open /\
  guardAt (lit "/retailer/dashboard") = Some (Protected (Some [lit "retailer"])) /\
  guardAt (lit "/customer/dashboard") = Some (Protected (Some [lit "customer"])).
Proof. repeat split; reflexivity. Qed.

Ltac guards :=
  unfold homeOf; simpl;
  unfold ProtectedRoute, PublicRoute, includes; simpl;
  repeat match goal with
         | |- context [streq (AuthStore.role ?p) ?l] =>
             destruct (streq (AuthStore.role p) l) eqn:?; simpl
         | |- context [guardAt (lit ?t)] =>
             change (guardAt (lit t)) with (Some Public) ||
             change (guardAt (lit t)) with (Some Open) ||
             change (guardAt (lit t))
               with (Some (Protected (Some [lit "retailer"]))) ||
             change (guardAt (lit t))
               with (Some (Protected (Some [lit "customer"])))
         | _ => progress (unfold ProtectedRoute, PublicRoute, includes; simpl)
         end;
  try congruence.

(** From every route of the table, once the store is not loading, the
    redirects end within two hops at a page that is rendered: the guards
    cannot send a visitor in circles. *)
Theorem redirects_end_at_a_page
        (s : AuthStore.State) (path : string) (g : Guard) :
  AuthStore.loading s = false ->
  In (path, g) routes ->
  exists here, settle 2 (lit "/" ++ lit path) g s = Some (here, Children).
Proof.
  intros Hl Hin. destruct s as [[u|] [p|] se l e]; simpl in Hl; subst l;
    unfold routes in Hin; simpl in Hin;
    repeat (destruct Hin as [Hin|Hin]; [injection Hin as <- <-|]);
    try contradiction;
    guards; eexists; reflexivity.
Qed.

(** A signed-in user with a profile who opens the auth page ends on the
    retailer dashboard when the role is "retailer", on the customer
    dashboard when it is "customer", and on the home page for any other
    role; a visitor without a user who opens a protected page ends on the
    auth page. *)
Theorem guards_lead_home (s : AuthStore.State) :
  AuthStore.loading s = false ->
  (forall u p,
     AuthStore.user s = Some u ->
     AuthStore.profile s = Some p ->
     settle 2 (lit "/auth") Public s =
       Some (homeOf (AuthStore.role p), Children)) /\
  (forall here allowedRoles,
     AuthStore.user s = None ->
     settle 2 here (Protected allowedRoles) s = Some (lit "/auth", Children)).
Proof.
  intros Hl. destruct s as [us ps se l e]. simpl in Hl. subst l. split.
  - intros u p Hu Hp. simpl in Hu, Hp. subst us ps. guards; reflexivity.
  - intros here roles Hu. simpl in Hu. subst us.
    destruct ps; guards; reflexivity.
Qed.

(** No state of the store opens both a customer page and a retailer page
    of the table: two protected routes that demand different roles are
    never both rendered. *)
Theorem roles_keep_pages_apart
        (s : AuthStore.State) (p1 p2 : string) (r1 r2 : list jsstring) :
  In (p1, Protected (Some r1)) routes ->
  In (p2, Protected (Some r2)) routes ->
  r1 <> r2 ->
  ~ (render (Protected (Some r1)) s = Children /\
     render (Protected (Some r2)) s = Children).
Proof.
  intros H1 H2 Hne [Hc1 Hc2].
  apply ProtectedRoute_children in Hc1 as (x1 & Hx1 & Hin1).
  apply ProtectedRoute_children in Hc2 as (x2 & Hx2 & Hin2).
  rewrite Hx1 in Hx2. injection Hx2 as <-.
  unfold routes in H1, H2. simpl in H1, H2.
  repeat (destruct H1 as [H1|H1]; [try discriminate H1; injection H1 as _ <-|]);
    try contradiction;
    repeat (destruct H2 as [H2|H2];
            [try discriminate H2; injection H2 as _ <-|]);
    try contradiction; try congruence;
    simpl in Hin1, Hin2; intuition; subst; discriminate.
Qed.

(** *** The theorems at sample states *)

Lemma redirects_end_at_sample :
  AuthStore.loading (AuthStore.signedInState "pharmacist") = false /\
  In ("auth"%string, Public) routes /\
  settle 2 (lit "/auth") Public (AuthStore.signedInState "pharmacist") =
    Some (lit "/", Children).
Proof.
  split; [reflexivity|]. split; [simpl; auto|].
  destruct (redirects_end_at_a_page (AuthStore.signedInState "pharmacist")
              "auth" Public eq_refl) as (here & H); [simpl; auto|].
  pose proof H as H'. vm_compute in H'. injection H' as <-. exact H.
Defined.

Lemma guards_lead_home_at_sample :
  AuthStore.loading (AuthStore.signedInState "retailer") = false /\
  settle 2 (lit "/auth") Public (AuthStore.signedInState "retailer") =
    Some (lit "/retailer/dashboard", Children) /\
  settle 2 (lit "/customer/favorites") (Protected (Some [lit "customer"]))
         AuthStore.initial = Some (lit "/customer/favorites", Spinner).
Proof.
  split; [reflexivity|]. split; [|reflexivity].
  exact (proj1 (guards_lead_home (AuthStore.signedInState "retailer") eq_refl)
               AuthStore.alice (AuthStore.aliceProfile "retailer")
               eq_refl eq_refl).
Defined.

Lemma roles_keep_pages_apart_at_sample :
  In ("customer/favorites"%string, Protected (Some [lit "customer"])) routes /\
  In ("retailer/stores"%string, Protected (Some [lit "retailer"])) routes /\
  ~ (render (Protected (Some [lit "customer"]))
            (AuthStore.signedInState "customer") = Children /\
     render (Protected (Some [lit "retailer"]))
            (AuthStore.signedInState "customer") = Children).
Proof.
  assert (H1 : In ("customer/favorites"%string,
                   Protected (Some [lit "customer"])) routes)
    by (simpl; auto 10).
  assert (H2 : In ("retailer/stores"%string,
                   Protected (Some [lit "retailer"])) routes)
    by (simpl; auto 10).
  split; [exact H1|]. split; [exact H2|].
  apply (roles_keep_pages_apart (AuthStore.signedInState "customer")
           "customer/favorites" "retailer/stores" _ _ H1 H2).
  discriminate.
Defined.

End AppFacts.

(** ** The chat widget *)

Module ChatWidgetFacts.
Import Chatbot ChatWidget ChatbotFacts.


Lemma orElse_not_empty (a : option jsstring) (b : jsstring) :
  b <> [] -> orElse a b <> [].
Proof.
  intros Hb. unfold orElse. destruct a as [[|c s]|]; simpl; congruence.
Qed.

Ltac act :=
  unfold run, handleSend, generateGeminiResponse, try_catch, bind, call,
    update, emit, ret, throw; simpl.

Section Replies.

Variable fetch : jsstring -> outcome Response.

(** What [generateGeminiResponse] leaves, case by case. *)
Lemma generate_cases (userMessage : jsstring) (w : World) :
  exists reply tail,
    generateGeminiResponse fetch userMessage w =
      (Returned reply,
       mkWorld (page w)
               (log w ++ CallFetch (promptFor userMessage) :: tail)) /\
    reply <> [] /\
    (tail = [] \/ exists err, tail = [ConsoleError (lit "Gemini API error:") err]) /\
    (forall resp d t,
       fetch (promptFor userMessage) = Returned resp ->
       ok resp = true ->
       json resp = Returned (Some d) ->
       replyText d = Some t ->
       t <> [] ->
       reply = t /\ tail = []).
Proof.
  act.
  destruct (fetch (promptFor userMessage)) as [resp|e] eqn:Hf; simpl.
  - destruct (ok resp) eqn:Hok; simpl.
    + destruct (json resp) as [[d|]|e] eqn:Hj; simpl.
      * exists (orElse (replyText d) msg_notProcessed), [].
        split; [reflexivity|]. split; [apply orElse_not_empty; discriminate|].
        split; [auto|].
        intros resp' d' t H1 _ H2 H3 Ht. injection H1 as <-.
        rewrite Hj in H2. injection H2 as <-. rewrite H3.
        destruct t; [congruence|]. auto.
      * exists msg_notConnected, [ConsoleError (lit "Gemini API error:") nullRead].
        rewrite <- app_assoc. split; [reflexivity|]. split; [discriminate|].
        split; [eauto|].
        intros resp' d' t H1 _ H2. injection H1 as <-. congruence.
      * exists msg_notConnected, [ConsoleError (lit "Gemini API error:") e].
        rewrite <- app_assoc. split; [reflexivity|]. split; [discriminate|].
        split; [eauto|].
        intros resp' d' t H1 _ H2. injection H1 as <-. congruence.
    + eexists msg_notConnected, [ConsoleError (lit "Gemini API error:") _].
      rewrite <- app_assoc. split; [reflexivity|]. split; [discriminate|].
      split; [eauto|].
      intros resp' d' t H1 H2. injection H1 as <-. congruence.
  - exists msg_notConnected, [ConsoleError (lit "Gemini API error:") e].
    rewrite <- app_assoc. split; [reflexivity|]. split; [discriminate|].
    split; [eauto|]. intros resp' d' t H1. discriminate.
Qed.


(** [generateGeminiResponse] never throws and never answers with the empty
    string: it makes one request, leaves the widget's state alone, and
    returns the model's text when the response is ok and carries a
    non-empty text at [candidates[0].content.parts[0].text]; in every other
    case it returns one of its two fixed apologies. *)
Theorem generateGeminiResponse_always_answers
        (userMessage : jsstring) (s : State) :
  exists reply,
    fst (run (generateGeminiResponse fetch userMessage) s) = Returned reply /\
    reply <> [] /\
    page (snd (run (generateGeminiResponse fetch userMessage) s)) = s /\
    filter (fun ev => match ev with CallFetch _ => true | _ => false end)
           (log (snd (run (generateGeminiResponse fetch userMessage) s))) =
      [CallFetch (promptFor userMessage)] /\
    (reply = msg_notConnected \/ reply = msg_notProcessed \/
     exists resp d,
       fetch (promptFor userMessage) = Returned resp /\ ok resp = true /\
       json resp = Returned (Some d) /\ replyText d = Some reply) /\
    (forall resp d t,
       fetch (promptFor userMessage) = Returned resp ->
       ok resp = true ->
       json resp = Returned (Some d) ->
       replyText d = Some t ->
       t <> [] ->
       reply = t).
Proof.
  unfold run.
  destruct (generate_cases userMessage (mkWorld s []))
    as (reply & tail & Hrun & Hne & Htail & Hgood).
  exists reply. rewrite Hrun. simpl.
  split; [reflexivity|]. split; [exact Hne|]. split; [reflexivity|].
  split; [destruct Htail as [->|(err & ->)]; reflexivity|].
  split; [|intros resp d t H1 H2 H3 H4 H5;
           exact (proj1 (Hgood resp d t H1 H2 H3 H4 H5))].
  clear Hgood Htail. revert Hrun. act.
  destruct (fetch (promptFor userMessage)) as [resp|e] eqn:Hf; simpl.
  - destruct (ok resp) eqn:Hok; simpl.
    + destruct (json resp) as [[d|]|e] eqn:Hj; simpl;
        intros H; injection H as <- _; auto.
      unfold orElse. destruct (replyText d) as [t|] eqn:Ht; auto.
      destruct (truthy t); auto. right. right. exists resp, d. auto.
    + intros H; injection H as <- _; auto.
  - intros H; injection H as <- _; auto.
Qed.

Variable clock : Clock.

(** With blank input, or while a reply is awaited, [handleSend] does
    nothing: no request, no message, the state as it was. *)
Theorem handleSend_ignores_blank_or_busy (s : State) :
  isBlank (input s) = true \/ isLoading s = true ->
  run (handleSend fetch clock) s = (Returned tt, mkWorld s []).
Proof.
  intros H. unfold run, handleSend. simpl. rewrite truthy_trim.
  destruct H as [H|H]; rewrite H; simpl; [reflexivity|].
  rewrite orb_true_r. reflexivity.
Qed.


End Replies.

(** *** [formatMessage] *)

Lemma piece_bold (m : jsstring) : piece (bold m) = Strong m.
Proof.
  unfold piece, endsWithStars, sliceInner, bold.
  rewrite !rev_app_distr. simpl.
  rewrite !length_app. simpl.
  replace (List.length m + 2 - 2)%nat with (List.length m) by lia.
  rewrite firstn_app, firstn_all, Nat.sub_diag. simpl.
  rewrite app_nil_r. reflexivity.
Qed.

Lemma split_decomposes_upto (n : nat) (s pending : jsstring) :
  (List.length s < n)%nat ->
  exists gap0 segs,
    s = weave gap0 segs /\
    extractMedicineName s = List.map fst segs /\
    splitBold n pending s =
      (pending ++ gap0) ::
      flat_map (fun seg => [bold (fst seg); snd seg]) segs.
Proof.
  revert s pending. induction n as [|n IH]; intros s pending Hlen; [lia|].
  simpl. destruct (matchBold s) as [[g rest]|] eqn:Hmatch.
  - pose proof (matchBold_shorter _ _ _ Hmatch) as Hshort.
    pose proof (extract_match _ _ _ Hmatch) as Hext.
    apply matchBold_sound in Hmatch as [Hs _].
    destruct (IH rest [] ltac:(lia)) as (gap & segs & Hrest & Hnames & Hsplit).
    exists [], ((g, gap) :: segs). simpl. rewrite app_nil_r.
    split; [rewrite Hs, Hrest at 1; reflexivity|].
    split; [rewrite Hext, Hnames; reflexivity|].
    rewrite Hsplit. reflexivity.
  - destruct s as [|c t].
    + exists [], []. rewrite app_nil_r. auto.
    + destruct (IH t (pending ++ [c]) ltac:(simpl in Hlen; lia))
        as (gap & segs & Ht & Hnames & Hsplit).
      exists (c :: gap), segs.
      split; [rewrite weave_gap; simpl; rewrite <- weave_gap; congruence|].
      split; [rewrite (extract_skip _ _ Hmatch); exact Hnames|].
      rewrite Hsplit, <- app_assoc. reflexivity.
Qed.

Lemma concat_parts (gap0 : jsstring) (segs : list (jsstring * jsstring)) :
  List.concat (gap0 :: flat_map (fun seg => [bold (fst seg); snd seg]) segs) =
  weave gap0 segs.
Proof.
  revert gap0. induction segs as [|[m g] segs IH]; intros gap0; simpl.
  - apply app_nil_r.
  - f_equal. specialize (IH g). simpl in IH. rewrite <- IH.
    unfold bold. rewrite <- !app_assoc. reflexivity.
Qed.

(** [formatMessage] shows every name that [extractMedicineName] returns as
    a [<strong>] piece, in the same order, each between the pieces for the
    text around it; and the parts it splits the text into, put together
    again, are the text. *)
Theorem formatMessage_highlights_extracted_names (text : jsstring) :
  exists gap0 segs,
    text = weave gap0 segs /\
    extractMedicineName text = List.map fst segs /\
    formatMessage text =
      piece gap0 ::
      flat_map (fun seg => [Strong (fst seg); piece (snd seg)]) segs /\
    List.concat (split text) = text.
Proof.
  destruct (split_decomposes_upto (S (List.length text)) text []
              (Nat.lt_succ_diag_r _))
    as (gap0 & segs & Htext & Hnames & Hsplit).
  exists gap0, segs. split; [exact Htext|]. split; [exact Hnames|].
  unfold formatMessage, split. rewrite Hsplit.
  change ([] ++ gap0) with gap0. split.
  - simpl. f_equal. clear.
    induction segs as [|[m g] segs IH]; simpl; [reflexivity|].
    rewrite piece_bold, IH. reflexivity.
  - rewrite concat_parts. symmetry. exact Htext.
Qed.

(** [formatMessage] tests each part on its own: text between double stars
    that the pattern does not match is still shown strong, without being
    offered as a name. *)
Example formatMessage_unmatched_stars :
  formatMessage (lit "**a*b**") = [Strong (lit "a*b")] /\
  extractMedicineName (lit "**a*b**") = [] /\
  formatMessage (lit "Take **Paracetamol** now") =
    [Plain (lit "Take "); Strong (lit "Paracetamol"); Plain (lit " now")] /\
  formatMessage [] = [Plain []].
Proof. repeat split; reflexivity. Qed.

(** *** The theorems at sample inputs *)

Lemma handleSend_ignores_at_sample :
  isBlank (input (typing "   ")) = true /\
  run (handleSend (answering "ok") sampleClock) (typing "   ") =
    (Returned tt, mkWorld (typing "   ") []).
Proof.
  split; [reflexivity|].
  exact (handleSend_ignores_blank_or_busy (answering "ok") sampleClock
           (typing "   ") (or_introl eq_refl)).
Defined.


End ChatWidgetFacts.

(** ** The search handler: what every call does *)

Module SearchFlowFacts.
Import SearchPage SearchFlow SearchPageFacts.

Ltac observe :=
  unfold toasts, fetchCalls, historyCalls, prelude, historyCallOf,
    resultToast, inputsOf; simpl;
  repeat match goal with
         | |- context [present ?x] => destruct x; simpl
         | |- context [user ?x] => destruct (user x); simpl
         | |- context [List.length ?r =? 0] => destruct (List.length r =? 0); simpl
         end.



(** With a query and a location the handler asks for candidates once,
    right after the submit event is handled. *)
Lemma handleSearch_fetches
      (db : Supabase) (e : option SubmitEvent) (s : State) (loc : Location) :
  isBlank (searchQuery s) = false ->
  userLocation s = Some loc ->
  exists tail,
    log (snd (run db e s)) =
      prelude e ++
      [CallSearchMedicines (searchQuery s) (lat loc) (lng loc) (radius s)] ++
      tail /\
    filter isFetch tail = [].
Proof.
  intros Hb Hl.
  destruct (searchMedicines db (searchQuery s) (lat loc) (lng loc) (radius s))
    as [rows|err] eqn:Hf.
  - destruct (user s) as [u|] eqn:Hu.
    + destruct (logSearch db (user_id u) (searchQuery s) (lat loc) (lng loc)
                          (List.length rows)) as [[]|err] eqn:Hh.
      * rewrite (@run_completes db e s loc rows Hb Hl Hf)
          by (unfold historyReturns; rewrite Hu; exact Hh).
        simpl. eexists. split; [reflexivity|].
        unfold historyCallOf, resultToast. rewrite Hu.
        destruct (List.length rows =? 0); reflexivity.
      * rewrite (@run_history_throws db e s loc rows u err Hb Hl Hf Hu Hh).
        simpl. eexists. split; [reflexivity|].
        unfold historyCallOf. rewrite Hu. reflexivity.
    + rewrite (@run_completes db e s loc rows Hb Hl Hf)
        by (unfold historyReturns; rewrite Hu; exact I).
      simpl. eexists. split; [reflexivity|].
      unfold historyCallOf, resultToast. rewrite Hu.
      destruct (List.length rows =? 0); reflexivity.
  - rewrite (@run_fetch_throws db e s loc err Hb Hl Hf). simpl.
    eexists. split; [reflexivity|]. reflexivity.
Qed.

(** When the location store rejects on a page without a location, the
    mount and location effects leave the default location (20.5937,
    78.9629) as the user's location and as the map centre, and a search
    from that page asks for candidates around the default location. *)
Theorem denied_location_searches_around_default
        (db : Supabase) (e : option SubmitEvent) (s : State)
        (getUserLocation : Act unit) (err : Error) (w : World) :
  userLocation s = None ->
  getUserLocation (mkWorld s []) = (Thrown err, w) ->
  isBlank (searchQuery (page w)) = false ->
  userLocation (afterMount getUserLocation s) =
    Some {| lat := defaultLat; lng := defaultLng |} /\
  mapCenter (afterMount getUserLocation s) = Some (defaultLat, defaultLng) /\
  fetchCalls (snd (run db e (afterMount getUserLocation s))) =
    [CallSearchMedicines (searchQuery (page w)) defaultLat defaultLng
                         (radius (page w))].
Proof.
  intros Hl Hg Hb.
  assert (Hs : afterMount getUserLocation s =
               setMapCenter (Some (defaultLat, defaultLng))
                 (setLocation defaultLat defaultLng (page w))).
  { unfold afterMount, mountEffect, locationEffect, bind, try_catch, update.
    simpl. rewrite Hl. simpl. rewrite Hg. reflexivity. }
  rewrite Hs. split; [reflexivity|]. split; [reflexivity|].
  set (s1 := setMapCenter (Some (defaultLat, defaultLng))
               (setLocation defaultLat defaultLng (page w))).
  assert (Hb1 : isBlank (searchQuery s1) = false) by exact Hb.
  assert (Hl1 : userLocation s1 = Some {| lat := defaultLat; lng := defaultLng |})
    by reflexivity.
  destruct (handleSearch_fetches db e s1 _ Hb1 Hl1) as (tail & Hlog & Htail).
  unfold fetchCalls. rewrite Hlog. rewrite !filter_app. simpl.
  rewrite Htail. unfold prelude. destruct (present e); reflexivity.
Qed.

(** *** At the sample page *)


Lemma denied_location_at_sample :
  userLocation unlocatedPage = None /\
  fetchCalls (snd (run (dbUp [sampleRow]) None
                       (afterMount geolocationDenied unlocatedPage))) =
    [CallSearchMedicines (lit "paracetamol") defaultLat defaultLng 10].
Proof.
  split; [reflexivity|].
  exact (proj2 (proj2 (denied_location_searches_around_default
                         (dbUp [sampleRow]) None unlocatedPage
                         geolocationDenied sampleError
                         (mkWorld unlocatedPage []) eq_refl eq_refl eq_refl))).
Defined.

End SearchFlowFacts.

(** ** Loading and removing favorites *)

Module FavoritesFlowFacts.
Import FavoritesPage FavoritesPageFacts.

Ltac act :=
  unfold FavoritesLoad.run, FavoritesLoad.userEffect,
    FavoritesLoad.fetchFavorites, try_catch_finally, try_catch, bind, call,
    update, emit, ret, throw; simpl.

(** [fetchFavorites] never throws and always ends the loading phase.  When
    the select answers without error the list becomes the rows it returned
    (the empty list for [null]) and no toast is shown; when it answers with
    an error, throws, or no user is there, the list stays as it was and
    the "Failed to load favorites" toast is shown. *)
Theorem fetchFavorites_outcomes
        (client : FavoritesLoad.SelectClient) (user : option AuthStore.User)
        (s : State) :
  fst (FavoritesLoad.run (FavoritesLoad.fetchFavorites client user) s) =
    Returned tt /\
  loading (page (snd (FavoritesLoad.run
                        (FavoritesLoad.fetchFavorites client user) s))) = false /\
  (forall u data,
     user = Some u ->
     client (AuthStore.id u) = Returned (data, None) ->
     favorites (page (snd (FavoritesLoad.run
                             (FavoritesLoad.fetchFavorites client user) s))) =
       FavoritesLoad.orEmpty data /\
     log (snd (FavoritesLoad.run
                 (FavoritesLoad.fetchFavorites client user) s)) =
       [FavoritesLoad.CallSelect (AuthStore.id u)]) /\
  ((user = None \/
    exists u err,
      user = Some u /\
      (client (AuthStore.id u) = Thrown err \/
       exists data, client (AuthStore.id u) = Returned (data, Some err))) ->
   favorites (page (snd (FavoritesLoad.run
                           (FavoritesLoad.fetchFavorites client user) s))) =
     favorites s /\
   filter (fun ev => match ev with
                     | FavoritesLoad.ToastError _ => true
                     | _ => false
                     end)
          (log (snd (FavoritesLoad.run
                       (FavoritesLoad.fetchFavorites client user) s))) =
     [FavoritesLoad.ToastError (lit "Failed to load favorites")]).
Proof.
  act. destruct user as [u|]; simpl.
  - destruct (client (AuthStore.id u)) as [[data [err|]]|err] eqn:Hc; simpl;
      repeat apply conj; auto; intros;
      repeat match goal with
             | H : _ \/ _ |- _ => destruct H
             | H : exists _, _ |- _ => destruct H
             | H : _ /\ _ |- _ => destruct H
             | H : Some _ = Some _ |- _ => injection H as <-
             end;
      try congruence; auto.
    rewrite Hc in H0. injection H0 as <-. auto.
  - repeat apply conj; auto; intros; try discriminate.
Qed.

(** The page's effect does nothing without a user, so [loading] stays as
    it is; for every state of the auth store in which the guard of the
    favorites route renders the page, the effect does ask for the user's
    favorites and ends the loading phase. *)
Theorem favorites_page_loads_behind_its_guard
        (client : FavoritesLoad.SelectClient) (auth : AuthStore.State)
        (s : State) :
  FavoritesLoad.run (FavoritesLoad.userEffect client None) s =
    (Returned tt, mkWorld s []) /\
  (In ("customer/favorites"%string, App.Protected (Some [lit "customer"]))
      App.routes /\
   (App.render (App.Protected (Some [lit "customer"])) auth = App.Children ->
    exists u,
      AuthStore.user auth = Some u /\
      loading (page (snd (FavoritesLoad.run
                            (FavoritesLoad.userEffect client
                                                      (AuthStore.user auth))
                            s))) = false /\
      In (FavoritesLoad.CallSelect (AuthStore.id u))
         (log (snd (FavoritesLoad.run
                      (FavoritesLoad.userEffect client (AuthStore.user auth))
                      s))))).
Proof.
  split; [reflexivity|]. split; [simpl; auto 10|].
  simpl. unfold App.ProtectedRoute.
  destruct (AuthStore.loading auth); [discriminate|].
  destruct (AuthStore.user auth) as [u|]; simpl; [|discriminate].
  intros _. exists u. split; [reflexivity|]. act.
  destruct (client (AuthStore.id u)) as [[data [err|]]|err]; simpl; auto.
Qed.

Lemma others_others (a b : jsstring) (l : list Favorite) :
  others a (others b l) = others b (others a l).
Proof.
  unfold others. induction l as [|f l IH]; simpl; [reflexivity|].
  destruct (streq (id f) a) eqn:Ha, (streq (id f) b) eqn:Hb; simpl;
    rewrite ?Ha, ?Hb; simpl; rewrite IH; reflexivity.
Qed.

Lemma others_absent (a : jsstring) (l : list Favorite) :
  (forall f, In f l -> id f <> a) -> others a l = l.
Proof.
  intros H. rewrite <- (app_nil_l l).
  induction l as [|f l IH]; [reflexivity|].
  unfold others in *. simpl.
  destruct (streq (id f) a) eqn:Hf.
  - apply streq_eq in Hf. exfalso. apply (H f); simpl; auto.
  - simpl. f_equal. apply IH. intros g Hg. apply H. simpl. auto.
Qed.

(** Successful removals, one after the other: removing the same favorite
    again changes nothing more, two removals give the same list in either
    order, removing an id that is not in the list leaves the list as it
    is, and the list never grows. *)
Theorem removals_compose
        (client : DeleteClient) (a b : jsstring) (s : State) :
  client a = Returned None ->
  client b = Returned None ->
  let after x t := page (snd (run client x t)) in
  after a (after a s) = after a s /\
  after a (after b s) = after b (after a s) /\
  ((forall f, In f (favorites s) -> id f <> a) -> after a s = s) /\
  (List.length (favorites (after a s)) <= List.length (favorites s))%nat.
Proof.
  intros Ha Hb after. subst after. cbv beta.
  repeat (rewrite ?(run_deleted client a _ Ha), ?(run_deleted client b _ Hb);
          simpl).
  unfold setFavorites. simpl. repeat apply conj.
  - f_equal. apply others_absent. intros f Hf.
    apply others_In in Hf. tauto.
  - f_equal. apply others_others.
  - intros H. rewrite (others_absent a _ H). destruct s; reflexivity.
  - unfold others. apply filter_length_le.
Qed.

(** *** At the sample page *)

Lemma removals_compose_at_sample :
  deleteOk (lit "b") = Returned None /\
  favorites (page (snd (run deleteOk (lit "a")
                            (page (snd (run deleteOk (lit "b") samplePage)))))) =
    [fav "c"] /\
  favorites (page (snd (run deleteOk (lit "b")
                            (page (snd (run deleteOk (lit "a") samplePage)))))) =
    [fav "c"].
Proof.
  split; [reflexivity|].
  pose proof (removals_compose deleteOk (lit "a") (lit "b") samplePage
                eq_refl eq_refl) as (_ & H & _).
  cbv zeta in H. split; [|rewrite <- H]; reflexivity.
Defined.

End FavoritesFlowFacts.

(** ** The customer dashboard *)

Module DashboardFacts.
Import Dashboard.

Ltac act :=
  unfold run, fetchDashboardData, try_catch_finally, try_catch, bind, call,
    update, emit, ret, throw; simpl.

Ltac queries :=
  repeat match goal with
         | |- context [recentOf ?d ?u] => destruct (recentOf d u) eqn:?; simpl
         | |- context [favoritesOf ?d ?u] =>
             destruct (favoritesOf d u) eqn:?; simpl
         | |- context [searchCountOf ?d ?u] =>
             destruct (searchCountOf d u) eqn:?; simpl
         | |- context [favoriteCountOf ?d ?u] =>
             destruct (favoriteCountOf d u) eqn:?; simpl
         | |- context [alertCountOf ?d ?u] =>
             destruct (alertCountOf d u) eqn:?; simpl
         end.

(** Without a user [fetchDashboardData] does nothing at all, the loading
    flag included.  With a user it never throws, ends the loading phase,
    asks each of the five queries at most once and shows at most one
    toast; it shows none exactly when all five queries returned. *)
Theorem fetchDashboardData_settles
        (db : Queries) (user : option AuthStore.User) (s : State) :
  (user = None ->
   run (fetchDashboardData db user) s = (Returned tt, mkWorld s [])) /\
  (forall u,
     user = Some u ->
     fst (run (fetchDashboardData db user) s) = Returned tt /\
     loading (page (snd (run (fetchDashboardData db user) s))) = false /\
     NoDup (log (snd (run (fetchDashboardData db user) s))) /\
     (filter isToast (log (snd (run (fetchDashboardData db user) s))) = [] <->
      allReturn db (AuthStore.id u))).
Proof.
  split; [intros ->; reflexivity|].
  intros u ->. act. unfold allReturn.
  queries;
    (split; [reflexivity|]); (split; [reflexivity|]);
    (split;
     [repeat (apply NoDup_cons; [simpl; intuition discriminate|]);
      apply NoDup_nil|]);
    (split; intros H;
     [first [discriminate H | repeat split; eexists; reflexivity]
     |first [reflexivity
            |destruct H as ((? & ?) & (? & ?) & (? & ?) & (? & ?) & (? & ?));
             congruence]]).
Qed.

(** When all five queries return, the lists are the rows returned and the
    counters the counts returned, with the empty list and zero standing in
    for [null]: the dashboard never holds a missing list or count, and a
    failed query that answers with [null] shows up as "nothing" without a
    toast. *)
Theorem fetchDashboardData_stores_answers
        (db : Queries) (u : AuthStore.User) (s : State)
        (searches : option (list SearchEntry))
        (favs : option (list FavoritesPage.Favorite))
        (n1 n2 n3 : option nat) :
  recentOf db (AuthStore.id u) = Returned searches ->
  favoritesOf db (AuthStore.id u) = Returned favs ->
  searchCountOf db (AuthStore.id u) = Returned n1 ->
  favoriteCountOf db (AuthStore.id u) = Returned n2 ->
  alertCountOf db (AuthStore.id u) = Returned n3 ->
  run (fetchDashboardData db (Some u)) s =
    (Returned tt,
     mkWorld
       (mkState {| totalSearches := orZero n1; favoriteStores := orZero n2;
                   activeAlerts := orZero n3 |}
                (FavoritesLoad.orEmpty searches) (FavoritesLoad.orEmpty favs)
                false)
       [CallRecentSearches (AuthStore.id u); CallFavorites (AuthStore.id u);
        CallSearchCount (AuthStore.id u); CallFavoriteCount (AuthStore.id u);
        CallAlertCount (AuthStore.id u)]).
Proof.
  intros H1 H2 H3 H4 H5. act.
  rewrite H1; simpl; rewrite H2; simpl; rewrite H3; simpl; rewrite H4; simpl;
    rewrite H5; reflexivity.
Qed.

(** The counters change all together or not at all: when any of the five
    queries throws, the counters stay as they were, while the recent
    searches, if their query returned before the throw, are already
    stored; when that first query throws, nothing is stored. *)
Theorem fetchDashboardData_keeps_stats_on_throw
        (db : Queries) (u : AuthStore.User) (s : State) :
  ~ allReturn db (AuthStore.id u) ->
  stats (page (snd (run (fetchDashboardData db (Some u)) s))) = stats s /\
  (forall searches,
     recentOf db (AuthStore.id u) = Returned searches ->
     recentSearches (page (snd (run (fetchDashboardData db (Some u)) s))) =
       FavoritesLoad.orEmpty searches) /\
  (forall err,
     recentOf db (AuthStore.id u) = Thrown err ->
     page (snd (run (fetchDashboardData db (Some u)) s)) = setLoading false s).
Proof.
  intros Hnot. act. unfold allReturn in Hnot.
  queries;
    (split;
     [first [reflexivity
            |exfalso; apply Hnot; repeat split; eexists; reflexivity]|]);
    (split; [intros ? H; first [discriminate H
                               |injection H as <-; reflexivity]|]);
    intros ? H; first [discriminate H | reflexivity].
Qed.

(** *** At the sample queries *)

Lemma dashboard_answers_at_sample :
  stats (page (snd (run (fetchDashboardData allUp (Some AuthStore.alice))
                        initial))) =
    {| totalSearches := 7; favoriteStores := 0; activeAlerts := 1 |} /\
  favorites (page (snd (run (fetchDashboardData allUp (Some AuthStore.alice))
                            initial))) = [].
Proof.
  rewrite (fetchDashboardData_stores_answers allUp AuthStore.alice initial
             (Some [sampleEntry]) None (Some 7%nat) None (Some 1%nat)
             eq_refl eq_refl eq_refl eq_refl eq_refl).
  split; reflexivity.
Defined.

Lemma dashboard_throw_at_sample :
  alertCountOf alertsDown (AuthStore.id AuthStore.alice) =
    Thrown (mkError (lit "timeout")) /\
  stats (page (snd (run (fetchDashboardData alertsDown (Some AuthStore.alice))
                        initial))) = stats initial /\
  recentSearches
    (page (snd (run (fetchDashboardData alertsDown (Some AuthStore.alice))
                    initial))) = [sampleEntry].
Proof.
  split; [reflexivity|].
  assert (Hnot : ~ allReturn alertsDown (AuthStore.id AuthStore.alice)).
  { intros (_ & _ & _ & _ & (x & Hx)). discriminate Hx. }
  pose proof (fetchDashboardData_keeps_stats_on_throw alertsDown
                AuthStore.alice initial Hnot) as (H1 & H2 & _).
  split; [exact H1|]. exact (H2 (Some [sampleEntry]) eq_refl).
Defined.

End DashboardFacts.
